(** * PDF on Submit: the hook handler of [pdf_on_submit/attach_pdf.py]

    The module is glue over a host framework.  The embedding keeps the
    handler's own control flow (branches, early returns, try/except,
    the [with] block) and threads a world through it: the File store,
    the language in effect and the chronological trace of host-service
    calls.  What the host computes (settings, documents, rendered PDFs,
    names, translations) is a record of oracles, [Host].

    The services that render (the print-format generator, [get_print],
    [get_pdf]) and the e-invoice helper answer with a value or an
    exception, as the module's own try/except blocks expect; the other
    services (settings and document access, logging, realtime, folder
    creation, [file.save()]) are taken to return normally. *)

From Stdlib Require Import String Ascii List Bool ZArith Lia Strings.Byte DecimalString.
Import ListNotations.
Open Scope list_scope.
Open Scope string_scope.

(** ** Python values *)

Definition bytes := list byte.

(** Exceptions below Python's [Exception]; [except TypeError] selects the
    first constructor, [except Exception] selects both. *)
Inductive exn : Type :=
| TypeError (msg : string)
| OtherException (cls msg : string).

Definition str_exn (e : exn) : string :=
  match e with TypeError m => m | OtherException _ m => m end.

Definition is_TypeError (e : exn) : bool :=
  match e with TypeError _ => true | OtherException _ _ => false end.

Definition is_Exception (e : exn) : bool := true.

Inductive result (A : Type) : Type :=
| Ok (a : A)
| Err (e : exn).
Arguments Ok {A} a.
Arguments Err {A} e.

(** Truth value of an [Optional[str]]: [None] and [""] are falsy. *)
Definition truthy (o : option string) : option string :=
  match o with
  | Some s => if s =? "" then None else Some s
  | None => None
  end.

(** [a or b] for an optional string [a] and a string [b]. *)
Definition py_or (a : option string) (b : string) : string :=
  match truthy a with Some s => s | None => b end.

(** An optional string inside an f-string. *)
Definition fmt (o : option string) : string :=
  match o with Some s => s | None => "None" end.

Definition fmt_Z (z : Z) : string := NilZero.string_of_int (Z.to_int z).

(** [s.replace(old, new)] for one-character [old] and [new].  Strings are
    UTF-8 byte strings; the byte of an ASCII character occurs in them only
    as that character. *)
Fixpoint replace (old new : ascii) (s : string) : string :=
  match s with
  | EmptyString => EmptyString
  | String c s' => String (if Ascii.eqb c old then new else c) (replace old new s')
  end.

Definition lower_ascii (c : ascii) : ascii :=
  let n := nat_of_ascii c in
  if (65 <=? n)%nat && (n <=? 90)%nat then ascii_of_nat (n + 32) else c.

(** [s.lower()] on the ASCII letters.  No non-ASCII character lowers to a
    character of ["format:"], so the prefix test below agrees with Python's. *)
Fixpoint lower (s : string) : string :=
  match s with
  | EmptyString => EmptyString
  | String c s' => String (lower_ascii c) (lower s')
  end.

Definition startswith (s p : string) : bool := String.prefix p s.

Definition endswith (s p : string) : bool :=
  let ls := String.length s in
  let lp := String.length p in
  (lp <=? ls)%nat && (substring (ls - lp) lp s =? p).

Fixpoint contains_char (c : ascii) (s : string) : bool :=
  match s with
  | EmptyString => false
  | String d s' => Ascii.eqb d c || contains_char c s'
  end.

Definition mem (x : string) (l : list string) : bool :=
  existsb (String.eqb x) l.

(** ** Host documents *)

Record Document : Type := mkDocument {
  doc_doctype : string;
  doc_name : string;
  doc_fields : list (string * string)
}.

(** A row of the child table [enabled_for] of "PDF on Submit Settings".
    [row_target_folder] is [None] when the row has no such attribute. *)
Record EnabledRow : Type := mkEnabledRow {
  row_document_type : string;
  row_auto_name : option string;
  row_print_format : option string;
  row_letter_head : option string;
  row_target_folder : option (option string)
}.

Record Settings : Type := mkSettings {
  enabled_for : list EnabledRow
}.

(** [settings.get("enabled_for", {"document_type": document_type})] *)
Definition settings_get_enabled_for (settings : Settings) (document_type : string)
  : list EnabledRow :=
  filter (fun row => row_document_type row =? document_type) (enabled_for settings).

(** [getattr(enabled_doctype, 'target_folder', 'Home')] *)
Definition getattr_target_folder (row : EnabledRow) (default : option string)
  : option string :=
  match row_target_folder row with
  | Some v => v
  | None => default
  end.

Record File : Type := mkFile {
  file_name : option string;
  content : option bytes;
  folder : option string;
  is_private : Z;
  is_folder : Z;
  attached_to_doctype : option string;
  attached_to_name : option string
}.

(** [frappe.new_doc("File")] *)
Definition new_doc_File : File :=
  mkFile None None None 0 0 None None.

Definition set_file_name (v : string) (f : File) : File :=
  mkFile (Some v) (content f) (folder f) (is_private f) (is_folder f)
         (attached_to_doctype f) (attached_to_name f).
Definition set_content (v : bytes) (f : File) : File :=
  mkFile (file_name f) (Some v) (folder f) (is_private f) (is_folder f)
         (attached_to_doctype f) (attached_to_name f).
Definition set_folder (v : option string) (f : File) : File :=
  mkFile (file_name f) (content f) v (is_private f) (is_folder f)
         (attached_to_doctype f) (attached_to_name f).
Definition set_is_private (v : Z) (f : File) : File :=
  mkFile (file_name f) (content f) (folder f) v (is_folder f)
         (attached_to_doctype f) (attached_to_name f).
Definition set_is_folder (v : Z) (f : File) : File :=
  mkFile (file_name f) (content f) (folder f) (is_private f) v
         (attached_to_doctype f) (attached_to_name f).
Definition set_attached_to_doctype (v : string) (f : File) : File :=
  mkFile (file_name f) (content f) (folder f) (is_private f) (is_folder f)
         (Some v) (attached_to_name f).
Definition set_attached_to_name (v : string) (f : File) : File :=
  mkFile (file_name f) (content f) (folder f) (is_private f) (is_folder f)
         (attached_to_doctype f) (Some v).

(** Field access where a parameter of the same name is in scope. *)
Abbreviation File_file_name := file_name (only parsing).
Abbreviation File_folder := folder (only parsing).

(** The message of [publish_realtime(event, message, doctype=, docname=)]. *)
Record RealtimeEvent : Type := mkRealtimeEvent {
  ev_event : string;
  ev_percent : Z;
  ev_title : string;
  ev_description : option string;
  ev_doctype : string;
  ev_docname : string
}.

(** ** Host-service calls, as they appear in the trace *)

Inductive Call : Type :=
| CGetSingle (doctype : string)
| CLog (msg : string)
| CLogError (msg : string)
| CMsgprint (msg : string)
| CRenderPdf (print_format : option string) (doc : Document) (letter_head : option string)
| CPublishRealtime (ev : RealtimeEvent)
| CDbExists (doctype name : string)
| CCreateNewFolder (folder parent : string)
| CDbGetValue (doctype : string) (name : option string) (fieldname : string)
| CGetDoc (doctype name : string)
| CGetPrint (doctype name : string) (print_format letterhead : option string)
| CGetPdf (html : string)
| CGetInstalledApps
| CAttachXmlToPdf (name : string) (pdf_data : bytes)
| CFormatAutoname (autoname : string) (doc : Document)
| CFileSave (file : File).

Record World : Type := mkWorld {
  store : list File;        (* the File documents in the database *)
  local_lang : string;      (* frappe.local.lang *)
  trace : list Call         (* host calls so far, oldest first *)
}.

(** ** The host framework

    Everything the host computes.  The rendering services take the
    language in effect as their first argument; they and the e-invoice
    helper may raise.  [host_db_get_value] and [host_db_exists] give the
    truth value of what the database returns; [host_db_exists] reads the
    File store.  [host_str_format] is [str.format] with one positional
    argument. *)
Record Host : Type := mkHost {
  host_get_single : string -> Settings;
  host_get_doc : string -> string -> Document;
  host_render_pdf : string -> option string -> Document -> option string
                    -> result (option bytes);
  host_get_print : string -> string -> string -> option string -> option string
                   -> result string;
  host_get_pdf : string -> result bytes;
  host_db_get_value : string -> option string -> string -> bool;
  host_db_exists : list File -> string -> string -> bool;
  host_get_installed_apps : list string;
  host_attach_xml_to_pdf : string -> bytes -> result bytes;
  host_format_autoname : string -> Document -> string;
  host_translate : string -> string -> string;
  host_str_format : string -> string -> string
}.

(** ** Control: statements over the world

    A statement falls through with a value, returns from the enclosing
    function, or raises. *)
Inductive outcome (A : Type) : Type :=
| Normal (a : A)
| Return
| Raise (e : exn).
Arguments Normal {A} a.
Arguments Return {A}.
Arguments Raise {A} e.

Definition M (A : Type) : Type := World -> outcome A * World.

Definition ret {A} (a : A) : M A := fun w => (Normal a, w).

Definition bindM {A B} (c : M A) (k : A -> M B) : M B :=
  fun w =>
    match c w with
    | (Normal a, w') => k a w'
    | (Return, w') => (Return, w')
    | (Raise e, w') => (Raise e, w')
    end.

Notation "x <- c ;; k" := (bindM c (fun x => k))
  (at level 61, c at next level, right associativity).
Notation "c ;; k" := (bindM c (fun _ => k))
  (at level 61, right associativity).

(** [return] *)
Definition early_return {A} : M A := fun w => (Return, w).

Definition raise {A} (e : exn) : M A := fun w => (Raise e, w).

Definition of_result {A} (r : result A) : M A :=
  match r with Ok a => ret a | Err e => raise e end.

(** [try: body  except C1 as e: h1  except C2 as e: h2 ...]: the first
    clause whose class matches handles the exception. *)
Definition try_ {A} (body : M A) (clauses : list ((exn -> bool) * (exn -> M A)))
  : M A :=
  fun w =>
    match body w with
    | (Raise e, w') =>
        match find (fun cl => fst cl e) clauses with
        | Some cl => snd cl e w'
        | None => (Raise e, w')
        end
    | r => r
    end.

(** The call boundary of a function without a return value: an early
    [return] ends the call normally. *)
Definition call (body : M unit) : M unit :=
  fun w =>
    match body w with
    | (Return, w') => (Normal tt, w')
    | r => r
    end.

Definition emit (c : Call) : M unit :=
  fun w => (Normal tt, mkWorld (store w) (local_lang w) (trace w ++ [c])%list).

Definition get_lang : M string := fun w => (Normal (local_lang w), w).

Definition set_lang (l : string) (w : World) : World :=
  mkWorld (store w) l (trace w).

Definition get_store : M (list File) := fun w => (Normal (store w), w).

Definition insert_file (f : File) : M unit :=
  fun w => (Normal tt, mkWorld (store w ++ [f])%list (local_lang w) (trace w)).

(** [with print_language(language): body].  The context manager leaves
    the language alone when [language] is falsy or already in effect;
    otherwise it sets it and restores the old one after the block, unless
    the block raised. *)
Definition print_language {A} (language : option string) (body : M A) : M A :=
  fun w =>
    match truthy language with
    | None => body w
    | Some l =>
        if l =? local_lang w then body w
        else
          match body (set_lang l w) with
          | (Raise e, w') => (Raise e, w')
          | (o, w') => (o, set_lang (local_lang w) w')
          end
    end.

(** ** The host services, as the module calls them

    Each service records its call in the trace, then answers from the
    host.  [frappe.db.exists] reads the File store; [create_new_folder]
    and [file.save()] insert into it. *)
Section Handler.

Variable h : Host.

Definition frappe_get_single (doctype : string) : M Settings :=
  emit (CGetSingle doctype) ;;
  ret (host_get_single h doctype).

Definition frappe_log (msg : string) : M unit := emit (CLog msg).

Definition frappe_log_error (msg : string) : M unit := emit (CLogError msg).

Definition frappe_msgprint (msg : string) : M unit := emit (CMsgprint msg).

Definition frappe_get_doc (doctype name : string) : M Document :=
  emit (CGetDoc doctype name) ;;
  ret (host_get_doc h doctype name).

(** [PrintFormatGenerator(print_format, doc, letter_head).render_pdf()] *)
Definition PrintFormatGenerator_render_pdf
    (print_format : option string) (doc : Document) (letter_head : option string)
  : M (option bytes) :=
  emit (CRenderPdf print_format doc letter_head) ;;
  lang <- get_lang ;;
  of_result (host_render_pdf h lang print_format doc letter_head).

Definition publish_realtime (ev : RealtimeEvent) : M unit :=
  emit (CPublishRealtime ev).

Definition frappe_db_exists (doctype name : string) : M bool :=
  emit (CDbExists doctype name) ;;
  files <- get_store ;;
  ret (host_db_exists h files doctype name).

(** [frappe.core.api.file.create_new_folder(file_name, folder)] *)
Definition create_new_folder (file_name folder : string) : M unit :=
  emit (CCreateNewFolder file_name folder) ;;
  let file := new_doc_File in
  let file := set_file_name file_name file in
  let file := set_is_folder 1 file in
  let file := set_folder (Some folder) file in
  insert_file file.

(** [frappe.db.get_value(doctype, name, fieldname)], as a truth value *)
Definition frappe_db_get_value (doctype : string) (name : option string)
    (fieldname : string) : M bool :=
  emit (CDbGetValue doctype name fieldname) ;;
  ret (host_db_get_value h doctype name fieldname).

Definition frappe_get_print (doctype name : string)
    (print_format letterhead : option string) : M string :=
  emit (CGetPrint doctype name print_format letterhead) ;;
  lang <- get_lang ;;
  of_result (host_get_print h lang doctype name print_format letterhead).

Definition get_pdf (html : string) : M bytes :=
  emit (CGetPdf html) ;;
  of_result (host_get_pdf h html).

Definition frappe_get_installed_apps : M (list string) :=
  emit CGetInstalledApps ;;
  ret (host_get_installed_apps h).

(** The import of [attach_xml_to_pdf] from eu_einvoice and its call. *)
Definition attach_xml_to_pdf (name : string) (pdf_data : bytes) : M bytes :=
  emit (CAttachXmlToPdf name pdf_data) ;;
  of_result (host_attach_xml_to_pdf h name pdf_data).

Definition _format_autoname (autoname : string) (doc : Document) : M string :=
  emit (CFormatAutoname autoname doc) ;;
  ret (host_format_autoname h autoname doc).

(** [file.save()]: the document is stored with the fields as assigned. *)
Definition file_save (file : File) : M unit :=
  emit (CFileSave file) ;;
  insert_file file.

(** [_(msg)] *)
Definition tr (msg : string) : M string :=
  lang <- get_lang ;;
  ret (host_translate h lang msg).

(** ** The module *)

(** [set_name_from_naming_options(autoname, doc)], lines 167-175 *)
Definition set_name_from_naming_options (autoname : string) (doc : Document)
  : M string :=
  let _autoname := lower autoname in
  if startswith _autoname "format:" then
    _format_autoname autoname doc
  else
    ret (doc_name doc).

(** [save_and_attach(content, to_doctype, to_name, folder, auto_name=None)],
    lines 140-164 *)
Definition save_and_attach (content : bytes) (to_doctype to_name : string)
    (folder : option string) (auto_name : option string) : M unit :=
  file_name <-
    match truthy auto_name with
    | Some auto_name =>
        doc <- frappe_get_doc to_doctype to_name ;;
        pdf_name <- set_name_from_naming_options auto_name doc ;;
        ret (replace "/" "-" pdf_name ++ ".pdf")
    | None =>
        ret (replace "/" "-" to_name ++ ".pdf")
    end ;;
  frappe_log ("Saving PDF as " ++ file_name ++ " in folder " ++ fmt folder) ;;
  let file := new_doc_File in
  let file := set_file_name file_name file in
  let file := set_content content file in
  let file := set_folder folder file in
  let file := set_is_private 0 file in
  let file := set_attached_to_doctype to_doctype file in
  let file := set_attached_to_name to_name file in
  file_save file ;;
  frappe_log ("File saved: " ++ fmt (File_file_name file)
              ++ ", Private: " ++ fmt_Z (is_private file)
              ++ ", Folder: " ++ fmt (File_folder file)).

(** [get_pdf_data(doctype, name, print_format=None, letterhead=None)],
    lines 130-137 *)
Definition get_pdf_data (doctype name : string)
    (print_format letterhead : option string) : M bytes :=
  frappe_log ("Generating HTML for " ++ doctype ++ " " ++ name
              ++ " with print format " ++ fmt print_format) ;;
  html <- frappe_get_print doctype name print_format letterhead ;;
  frappe_log ("HTML generated for " ++ doctype ++ " " ++ name) ;;
  pdf <- get_pdf html ;;
  frappe_log ("PDF generated for " ++ doctype ++ " " ++ name) ;;
  ret pdf.

(** [create_folder(folder, parent)], lines 120-127 *)
Definition create_folder (folder parent : string) : M string :=
  let new_folder_name := String.concat "/" [parent; folder] in
  found <- frappe_db_exists "File" new_folder_name ;;
  (if negb found then create_new_folder folder parent else ret tt) ;;
  ret new_folder_name.

(** The nested [publish_progress(percent)] of [execute], lines 66-72 *)
Definition publish_progress (doctype name : string) (percent : Z) : M unit :=
  title <- tr "Creating PDF ..." ;;
  publish_realtime
    (mkRealtimeEvent "progress" percent title None doctype name).

(** The body of [execute], lines 74-117 *)
Definition execute_body (doctype name : string) (title lang : option string)
    (show_progress : bool) (auto_name print_format letter_head : option string)
  : M unit :=
  (if show_progress then publish_progress doctype name 0 else ret tt) ;;

  doctype_folder <- create_folder doctype "Home" ;;
  title_folder <-
    match truthy title with
    | Some title => f <- create_folder title doctype_folder ;; ret (Some f)
    | None => ret None
    end ;;
  let target_folder := py_or title_folder doctype_folder in

  (if show_progress then publish_progress doctype name 33 else ret tt) ;;

  pdf_data <-
    print_language lang (
      beta <- frappe_db_get_value "Print Format" print_format
                                  "print_format_builder_beta" ;;
      if beta then
        doc <- frappe_get_doc doctype name ;;
        try_ (
          pdf_data <- PrintFormatGenerator_render_pdf print_format doc letter_head ;;
          match pdf_data with
          | None =>
              frappe_log_error "PDF data is None. Skipping attachment." ;;
              early_return
          | Some pdf_data =>
              frappe_log ("PDF data generated successfully for " ++ name) ;;
              ret pdf_data
          end)
        [ (is_TypeError, fun e =>
             frappe_log_error ("Error generating PDF: " ++ str_exn e) ;;
             early_return) ]
      else
        get_pdf_data doctype name print_format letter_head) ;;

  einvoice <-
    (if doctype =? "Sales Invoice" then
       apps <- frappe_get_installed_apps ;;
       ret (mem "eu_einvoice" apps)
     else ret false) ;;
  pdf_data <-
    (if einvoice then
       try_ (attach_xml_to_pdf name pdf_data)
       [ (is_Exception, fun _ =>
            template <- tr "Failed to attach XML to PDF for Sales Invoice {0}" ;;
            let msg := host_str_format h template name in
            (if show_progress then frappe_msgprint msg else ret tt) ;;
            frappe_log_error msg ;;
            ret pdf_data) ]
     else ret pdf_data) ;;

  (if show_progress then publish_progress doctype name 66 else ret tt) ;;

  save_and_attach pdf_data doctype name (Some target_folder) auto_name ;;
  frappe_log ("PDF saved and attached successfully for " ++ name) ;;

  (if show_progress then publish_progress doctype name 100 else ret tt).

(** [execute(doctype, name, title=None, lang=None, show_progress=True,
             auto_name=None, print_format=None, letter_head=None)] *)
Definition execute (doctype name : string) (title lang : option string)
    (show_progress : bool) (auto_name print_format letter_head : option string)
  : M unit :=
  call (execute_body doctype name title lang show_progress
                     auto_name print_format letter_head).

(** The body of [attach_pdf], lines 15-45 *)
Definition attach_pdf_body (doc : Document) (event : option string) : M unit :=
  settings <- frappe_get_single "PDF on Submit Settings" ;;

  enabled_doctype <-
    match settings_get_enabled_for settings (doc_doctype doc) with
    | enabled_doctype :: _ => ret enabled_doctype
    | [] =>
        frappe_log_error ("No enabled doctype found for " ++ doc_doctype doc) ;;
        early_return
    end ;;

  let auto_name := row_auto_name enabled_doctype in
  let print_format := row_print_format enabled_doctype in
  let letter_head := row_letter_head enabled_doctype in
  let target_folder := getattr_target_folder enabled_doctype (Some "Home") in

  frappe_log ("Generating PDF for " ++ doc_doctype doc ++ " " ++ doc_name doc
              ++ " with print format " ++ fmt print_format) ;;

  pdf_data <-
    try_ (
      pdf_data <- PrintFormatGenerator_render_pdf print_format doc letter_head ;;
      match pdf_data with
      | None =>
          frappe_log_error "PDF data is None. Skipping attachment." ;;
          early_return
      | Some pdf_data =>
          frappe_log ("PDF data generated successfully for " ++ doc_name doc) ;;
          ret pdf_data
      end)
    [ (is_TypeError, fun e =>
         frappe_log_error ("Error generating PDF: " ++ str_exn e) ;;
         early_return);
      (is_Exception, fun e =>
         frappe_log_error ("Unexpected error generating PDF: " ++ str_exn e) ;;
         early_return) ] ;;

  save_and_attach pdf_data (doc_doctype doc) (doc_name doc) target_folder auto_name ;;
  frappe_log ("PDF saved and attached successfully for " ++ doc_name doc).

(** [attach_pdf(doc, event=None)] *)
Definition attach_pdf (doc : Document) (event : option string) : M unit :=
  call (attach_pdf_body doc event).

End Handler.

(** ** Reading a run

    A run takes a world [w] to a world [w']; the calls it made are the
    part of the trace of [w'] after the trace of [w]. *)

Definition since (w w' : World) : list Call :=
  skipn (length (trace w)) (trace w').

Fixpoint published (t : list Call) : list RealtimeEvent :=
  match t with
  | [] => []
  | CPublishRealtime ev :: t' => ev :: published t'
  | _ :: t' => published t'
  end.

Definition progress_percents (t : list Call) : list Z :=
  map ev_percent (filter (fun ev => ev_event ev =? "progress") (published t)).

Fixpoint saved_files (t : list Call) : list File :=
  match t with
  | [] => []
  | CFileSave f :: t' => f :: saved_files t'
  | _ :: t' => saved_files t'
  end.

Fixpoint logged_errors (t : list Call) : list string :=
  match t with
  | [] => []
  | CLogError msg :: t' => msg :: logged_errors t'
  | _ :: t' => logged_errors t'
  end.

(** The calls that render: the print-format generator, and the two
    stages of [get_pdf_data]. *)
Definition is_render_call (c : Call) : bool :=
  match c with
  | CRenderPdf _ _ _ | CGetPrint _ _ _ _ | CGetPdf _ => true
  | _ => false
  end.

(** The steps the specification names. *)
Inductive Step : Type :=
| FetchSettings
| RenderPdf
| CreateFolderPath
| SaveFile
| PublishProgress.

Definition Step_eqb (a b : Step) : bool :=
  match a, b with
  | FetchSettings, FetchSettings
  | RenderPdf, RenderPdf
  | CreateFolderPath, CreateFolderPath
  | SaveFile, SaveFile
  | PublishProgress, PublishProgress => true
  | _, _ => false
  end.

Definition step_of (c : Call) : option Step :=
  match c with
  | CGetSingle _ => Some FetchSettings
  | CRenderPdf _ _ _ | CGetPrint _ _ _ _ | CGetPdf _ => Some RenderPdf
  | CDbExists _ _ | CCreateNewFolder _ _ => Some CreateFolderPath
  | CFileSave _ => Some SaveFile
  | CPublishRealtime _ => Some PublishProgress
  | _ => None
  end.

(** Consecutive calls of one step count once. *)
Fixpoint squash (l : list Step) : list Step :=
  match l with
  | [] => []
  | a :: l' =>
      match squash l' with
      | b :: r => if Step_eqb a b then b :: r else a :: b :: r
      | [] => [a]
      end
  end.

Fixpoint classify (t : list Call) : list Step :=
  match t with
  | [] => []
  | c :: t' =>
      match step_of c with
      | Some s => s :: classify t'
      | None => classify t'
      end
  end.

Definition steps (t : list Call) : list Step := squash (classify t).

Definition without_progress (l : list Step) : list Step :=
  filter (fun s => negb (Step_eqb s PublishProgress)) l.

(** The order in which the specification lists the steps:
    "fetch settings, render PDF, create folder path, save file". *)
Definition spec_listed_order : list Step :=
  [FetchSettings; RenderPdf; CreateFolderPath; SaveFile].

(** The language in effect inside [with print_language(lang)]. *)
Definition language_in_effect (lang : option string) (w : World) : string :=
  match truthy lang with Some l => l | None => local_lang w end.

(** The name [set_name_from_naming_options] computes. *)
Definition naming_options_name (h : Host) (autoname : string) (doc : Document)
  : string :=
  if startswith (lower autoname) "format:" then host_format_autoname h autoname doc
  else doc_name doc.

(** The base name [save_and_attach] chooses before it replaces ["/"]. *)
Definition chosen_base_name (h : Host) (to_doctype to_name : string)
    (auto_name : option string) : string :=
  match truthy auto_name with
  | Some a => naming_options_name h a (host_get_doc h to_doctype to_name)
  | None => to_name
  end.

(** The e-invoice step of [execute] applies. *)
Definition einvoice_applies (h : Host) (doctype : string) : bool :=
  (doctype =? "Sales Invoice") && mem "eu_einvoice" (host_get_installed_apps h).

(** ** Summaries

    What each function of the module does to the world, written out as
    the calls it makes and the files it stores; the run lemmas below
    prove them equal to the functions. *)
Section Summaries.

Variable h : Host.

Definition naming_calls (autoname : string) (doc : Document) : list Call :=
  if startswith (lower autoname) "format:" then [CFormatAutoname autoname doc]
  else [].

(** The File document [save_and_attach] builds. *)
Definition pdf_file (content : bytes) (to_doctype to_name : string)
    (folder auto_name : option string) : File :=
  mkFile (Some (replace "/" "-" (chosen_base_name h to_doctype to_name auto_name)
                ++ ".pdf"))
         (Some content) folder 0 0 (Some to_doctype) (Some to_name).

Definition save_and_attach_calls (content : bytes) (to_doctype to_name : string)
    (folder auto_name : option string) : list Call :=
  let file := pdf_file content to_doctype to_name folder auto_name in
  (match truthy auto_name with
   | Some a => CGetDoc to_doctype to_name
               :: naming_calls a (host_get_doc h to_doctype to_name)
   | None => []
   end
   ++ [CLog ("Saving PDF as " ++ fmt (file_name file) ++ " in folder " ++ fmt folder);
       CFileSave file;
       CLog ("File saved: " ++ fmt (file_name file)
             ++ ", Private: " ++ fmt_Z (is_private file)
             ++ ", Folder: " ++ fmt folder)])%list.

Definition folder_file (folder parent : string) : File :=
  mkFile (Some folder) None (Some parent) 0 1 None None.

Definition create_folder_calls (files : list File) (folder parent : string)
  : list Call :=
  let new_folder_name := String.concat "/" [parent; folder] in
  CDbExists "File" new_folder_name
  :: (if host_db_exists h files "File" new_folder_name then []
      else [CCreateNewFolder folder parent]).

Definition create_folder_files (files : list File) (folder parent : string)
  : list File :=
  if host_db_exists h files "File" (String.concat "/" [parent; folder]) then []
  else [folder_file folder parent].

Definition progress_event (lang doctype name : string) (percent : Z)
  : RealtimeEvent :=
  mkRealtimeEvent "progress" percent (host_translate h lang "Creating PDF ...")
                  None doctype name.

Definition outcome_of_result {A} (r : result A) : outcome A :=
  match r with Ok a => Normal a | Err e => Raise e end.

Definition get_pdf_data_result (lang doctype name : string)
    (print_format letterhead : option string) : result bytes :=
  match host_get_print h lang doctype name print_format letterhead with
  | Ok html => host_get_pdf h html
  | Err e => Err e
  end.

Definition get_pdf_data_calls (lang doctype name : string)
    (print_format letterhead : option string) : list Call :=
  [CLog ("Generating HTML for " ++ doctype ++ " " ++ name
         ++ " with print format " ++ fmt print_format);
   CGetPrint doctype name print_format letterhead]
  ++ match host_get_print h lang doctype name print_format letterhead with
     | Ok html =>
         [CLog ("HTML generated for " ++ doctype ++ " " ++ name); CGetPdf html]
         ++ match host_get_pdf h html with
            | Ok _ => [CLog ("PDF generated for " ++ doctype ++ " " ++ name)]
            | Err _ => []
            end
     | Err _ => []
     end.

(** *** [attach_pdf] *)

Definition attach_error_message (e : exn) : string :=
  (if is_TypeError e then "Error generating PDF: "
   else "Unexpected error generating PDF: ") ++ str_exn e.

Definition attach_pdf_summary (doc : Document) (w : World) : outcome unit * World :=
  let get := CGetSingle "PDF on Submit Settings" in
  match settings_get_enabled_for (host_get_single h "PDF on Submit Settings")
                                 (doc_doctype doc) with
  | [] =>
      (Return,
       mkWorld (store w) (local_lang w)
         (trace w ++ [get; CLogError ("No enabled doctype found for "
                                      ++ doc_doctype doc)])%list)
  | row :: _ =>
      let gen := CLog ("Generating PDF for " ++ doc_doctype doc ++ " "
                       ++ doc_name doc ++ " with print format "
                       ++ fmt (row_print_format row)) in
      let render := CRenderPdf (row_print_format row) doc (row_letter_head row) in
      match host_render_pdf h (local_lang w) (row_print_format row) doc
                            (row_letter_head row) with
      | Ok (Some pdf) =>
          let folder := getattr_target_folder row (Some "Home") in
          (Normal tt,
           mkWorld
             (store w ++ [pdf_file pdf (doc_doctype doc) (doc_name doc) folder
                                   (row_auto_name row)])%list
             (local_lang w)
             (trace w
              ++ [get; gen; render;
                  CLog ("PDF data generated successfully for " ++ doc_name doc)]
              ++ save_and_attach_calls pdf (doc_doctype doc) (doc_name doc) folder
                                       (row_auto_name row)
              ++ [CLog ("PDF saved and attached successfully for "
                        ++ doc_name doc)])%list)
      | Ok None =>
          (Return,
           mkWorld (store w) (local_lang w)
             (trace w ++ [get; gen; render;
                          CLogError "PDF data is None. Skipping attachment."])%list)
      | Err e =>
          (Return,
           mkWorld (store w) (local_lang w)
             (trace w ++ [get; gen; render;
                          CLogError (attach_error_message e)])%list)
      end
  end.

(** *** [execute] *)

Definition progress_calls (show_progress : bool) (lang doctype name : string)
    (percent : Z) : list Call :=
  if show_progress
  then [CPublishRealtime (progress_event lang doctype name percent)]
  else [].

Definition doctype_folder_name (doctype : string) : string :=
  String.concat "/" ["Home"; doctype].

Definition folders_files (files : list File) (doctype : string)
    (title : option string) : list File :=
  let made := create_folder_files files doctype "Home" in
  (made ++ match truthy title with
           | Some title =>
               create_folder_files (files ++ made) title (doctype_folder_name doctype)
           | None => []
           end)%list.

Definition folders_calls (files : list File) (doctype : string)
    (title : option string) : list Call :=
  (create_folder_calls files doctype "Home"
   ++ match truthy title with
      | Some title =>
          create_folder_calls (files ++ create_folder_files files doctype "Home")
                              title (doctype_folder_name doctype)
      | None => []
      end)%list.

Definition execute_target_folder (doctype : string) (title : option string)
  : string :=
  py_or match truthy title with
        | Some title => Some (String.concat "/" [doctype_folder_name doctype; title])
        | None => None
        end
        (doctype_folder_name doctype).

Definition generate_outcome (lang doctype name : string)
    (print_format letter_head : option string) : outcome bytes :=
  if host_db_get_value h "Print Format" print_format "print_format_builder_beta"
  then
    match host_render_pdf h lang print_format (host_get_doc h doctype name)
                          letter_head with
    | Ok (Some pdf) => Normal pdf
    | Ok None => Return
    | Err (TypeError _) => Return
    | Err e => Raise e
    end
  else
    outcome_of_result (get_pdf_data_result lang doctype name print_format letter_head).

Definition generate_calls (lang doctype name : string)
    (print_format letter_head : option string) : list Call :=
  CDbGetValue "Print Format" print_format "print_format_builder_beta"
  :: if host_db_get_value h "Print Format" print_format "print_format_builder_beta"
     then
       [CGetDoc doctype name;
        CRenderPdf print_format (host_get_doc h doctype name) letter_head]
       ++ match host_render_pdf h lang print_format (host_get_doc h doctype name)
                                letter_head with
          | Ok (Some _) => [CLog ("PDF data generated successfully for " ++ name)]
          | Ok None => [CLogError "PDF data is None. Skipping attachment."]
          | Err (TypeError msg) => [CLogError ("Error generating PDF: " ++ msg)]
          | Err _ => []
          end
     else get_pdf_data_calls lang doctype name print_format letter_head.

Definition einvoice_pdf (doctype name : string) (pdf : bytes) : bytes :=
  if einvoice_applies h doctype then
    match host_attach_xml_to_pdf h name pdf with
    | Ok pdf' => pdf'
    | Err _ => pdf
    end
  else pdf.

Definition einvoice_calls (lang doctype name : string) (show_progress : bool)
    (pdf : bytes) : list Call :=
  if doctype =? "Sales Invoice" then
    CGetInstalledApps
    :: if mem "eu_einvoice" (host_get_installed_apps h) then
         CAttachXmlToPdf name pdf
         :: match host_attach_xml_to_pdf h name pdf with
            | Ok _ => []
            | Err _ =>
                let msg :=
                  host_str_format h
                    (host_translate h lang
                       "Failed to attach XML to PDF for Sales Invoice {0}") name in
                ((if show_progress then [CMsgprint msg] else [])
                 ++ [CLogError msg])%list
            end
       else []
  else [].

Definition execute_summary (doctype name : string) (title lang : option string)
    (show_progress : bool) (auto_name print_format letter_head : option string)
    (w : World) : outcome unit * World :=
  let l0 := local_lang w in
  let l := language_in_effect lang w in
  let files := (store w ++ folders_files (store w) doctype title)%list in
  let before :=
    (trace w
     ++ progress_calls show_progress l0 doctype name 0
     ++ folders_calls (store w) doctype title
     ++ progress_calls show_progress l0 doctype name 33
     ++ generate_calls l doctype name print_format letter_head)%list in
  match generate_outcome l doctype name print_format letter_head with
  | Normal pdf =>
      let pdf' := einvoice_pdf doctype name pdf in
      let target_folder := Some (execute_target_folder doctype title) in
      (Normal tt,
       mkWorld
         (files ++ [pdf_file pdf' doctype name target_folder auto_name])%list
         l0
         (before
          ++ einvoice_calls l0 doctype name show_progress pdf
          ++ progress_calls show_progress l0 doctype name 66
          ++ save_and_attach_calls pdf' doctype name target_folder auto_name
          ++ [CLog ("PDF saved and attached successfully for " ++ name)]
          ++ progress_calls show_progress l0 doctype name 100)%list)
  | Return => (Return, mkWorld files l0 before)
  | Raise e => (Raise e, mkWorld files l before)
  end.

(** The calls of [execute] up to the end of the [with] block. *)
Definition calls_before (doctype name : string) (title lang : option string)
    (show_progress : bool) (print_format letter_head : option string)
    (w : World) : list Call :=
  (progress_calls show_progress (local_lang w) doctype name 0
   ++ folders_calls (store w) doctype title
   ++ progress_calls show_progress (local_lang w) doctype name 33
   ++ generate_calls (language_in_effect lang w) doctype name
                     print_format letter_head)%list.

(** The calls of [execute] after the [with] block. *)
Definition calls_after (doctype name : string) (title : option string)
    (show_progress : bool) (auto_name : option string) (w : World) (pdf : bytes)
  : list Call :=
  (einvoice_calls (local_lang w) doctype name show_progress pdf
   ++ progress_calls show_progress (local_lang w) doctype name 66
   ++ save_and_attach_calls (einvoice_pdf doctype name pdf) doctype name
        (Some (execute_target_folder doctype title)) auto_name
   ++ [CLog ("PDF saved and attached successfully for " ++ name)]
   ++ progress_calls show_progress (local_lang w) doctype name 100)%list.

End Summaries.

(** ** Sample hosts and inputs *)

Definition pdf_weasy : bytes := [x25; x50; x44; x46; x2d; x77].
Definition pdf_wk : bytes := [x25; x50; x44; x46; x2d; x6b].

Definition sample_doc : Document :=
  mkDocument "Sales Order" "SO/2024/0001" [("customer", "ACME")].

Definition sample_row : EnabledRow :=
  mkEnabledRow "Sales Order" (Some "format:{customer}/{name}")
               (Some "Standard") None None.

Definition sample_settings : Settings := mkSettings [sample_row].

Definition path_exists (files : list File) (doctype name : string) : bool :=
  existsb (fun f => (is_folder f =? 1)%Z
                    && (String.concat "/" [fmt (folder f); fmt (file_name f)] =? name))
          files.

(** A host whose classic print formats render through wkhtmltopdf and
    whose generator renders through WeasyPrint, with different bytes. *)
Definition sample_host : Host :=
  mkHost
    (fun _ => sample_settings)
    (fun _ _ => sample_doc)
    (fun _ _ _ _ => Ok (Some pdf_weasy))
    (fun _ _ _ _ _ => Ok "<html>SO/2024/0001</html>")
    (fun _ => Ok pdf_wk)
    (fun _ _ _ => false)
    path_exists
    ["frappe"; "erpnext"]
    (fun _ pdf => Ok pdf)
    (fun _ _ => "ACME/SO/2024/0001")
    (fun _ msg => msg)
    (fun template _ => template).

(** The same host with print formats of the print-format builder. *)
Definition beta_host : Host :=
  mkHost
    (host_get_single sample_host) (host_get_doc sample_host)
    (host_render_pdf sample_host) (host_get_print sample_host)
    (host_get_pdf sample_host)
    (fun _ _ _ => true)
    (host_db_exists sample_host) (host_get_installed_apps sample_host)
    (host_attach_xml_to_pdf sample_host) (host_format_autoname sample_host)
    (host_translate sample_host) (host_str_format sample_host).

(** A host whose HTML rendering fails with a template error. *)
Definition failing_host : Host :=
  mkHost
    (host_get_single sample_host) (host_get_doc sample_host)
    (fun _ _ _ _ => Err (OtherException "TemplateError" "bad template"))
    (fun _ _ _ _ _ => Err (OtherException "TemplateError" "bad template"))
    (host_get_pdf sample_host)
    (host_db_get_value sample_host)
    (host_db_exists sample_host) (host_get_installed_apps sample_host)
    (host_attach_xml_to_pdf sample_host) (host_format_autoname sample_host)
    (host_translate sample_host) (host_str_format sample_host).

(** A host whose generator raises a [TypeError]. *)
Definition type_error_host : Host :=
  mkHost
    (host_get_single sample_host) (host_get_doc sample_host)
    (fun _ _ _ _ => Err (TypeError "unsupported operand"))
    (host_get_print sample_host)
    (host_get_pdf sample_host)
    (fun _ _ _ => true)
    (host_db_exists sample_host) (host_get_installed_apps sample_host)
    (host_attach_xml_to_pdf sample_host) (host_format_autoname sample_host)
    (host_translate sample_host) (host_str_format sample_host).

(** A host with no settings row at all. *)
Definition unconfigured_host : Host :=
  mkHost
    (fun _ => mkSettings [])
    (host_get_doc sample_host)
    (host_render_pdf sample_host) (host_get_print sample_host)
    (host_get_pdf sample_host)
    (host_db_get_value sample_host)
    (host_db_exists sample_host) (host_get_installed_apps sample_host)
    (host_attach_xml_to_pdf sample_host) (host_format_autoname sample_host)
    (host_translate sample_host) (host_str_format sample_host).

Definition home_folder : File :=
  mkFile (Some "Home") None None 0 1 None None.

Definition world0 : World := mkWorld [home_folder] "en" [].

(** The worlds the queued job leaves on the sample host, with and without
    progress events. *)
Definition world_after_execute : World :=
  Eval vm_compute in
    snd (execute_body sample_host "Sales Order" "SO/2024/0001" (Some "ACME") None
                      true (Some "format:{customer}/{name}") (Some "Standard")
                      None world0).

Definition world_after_quiet_execute : World :=
  Eval vm_compute in
    snd (execute sample_host "Sales Order" "SO/2024/0001" (Some "ACME") None
                 false (Some "format:{customer}/{name}") (Some "Standard")
                 None world0).

(** The worlds the two paths leave on the sample host, given the same
    document and the same settings row. *)
Definition world_after_attach : World :=
  Eval vm_compute in snd (attach_pdf sample_host sample_doc None world0).

Definition world_after_queued : World :=
  Eval vm_compute in
    snd (execute sample_host (doc_doctype sample_doc) (doc_name sample_doc)
                 None None true (row_auto_name sample_row)
                 (row_print_format sample_row) (row_letter_head sample_row) world0).

Definition world_after_type_error : World :=
  Eval vm_compute in
    snd (execute type_error_host "Sales Order" "SO/2024/0001" None None true
                 None (Some "Standard") None world0).

Definition world_after_failure : World :=
  Eval vm_compute in
    snd (execute failing_host "Sales Order" "SO/2024/0001" None None true
                 None (Some "Standard") None world0).

Definition world_after_beta_queued : World :=
  Eval vm_compute in
    snd (execute_body beta_host (doc_doctype sample_doc) (doc_name sample_doc)
                      None None false (row_auto_name sample_row)
                      (row_print_format sample_row) (row_letter_head sample_row)
                      world0).

(** ** More readings of a run *)

(** The calls that look for a folder or create one. *)
Definition is_folder_call (c : Call) : bool :=
  match c with
  | CDbExists _ _ | CCreateNewFolder _ _ => true
  | _ => false
  end.

(** The calls of the e-invoice step. *)
Definition is_einvoice_call (c : Call) : bool :=
  match c with
  | CGetInstalledApps | CAttachXmlToPdf _ _ => true
  | _ => false
  end.

Definition is_get_doc_call (c : Call) : bool :=
  match c with
  | CGetDoc _ _ => true
  | _ => false
  end.

Definition is_get_single_call (c : Call) : bool :=
  match c with
  | CGetSingle _ => true
  | _ => false
  end.

Fixpoint msgprints (t : list Call) : list string :=
  match t with
  | [] => []
  | CMsgprint msg :: t' => msg :: msgprints t'
  | _ :: t' => msgprints t'
  end.

(** A host answers [frappe.db.exists("File", name)] from the File store
    when it finds exactly the folders stored under that path. *)
Definition exists_reads_store (h : Host) : Prop :=
  forall (files : list File) (name : string),
    host_db_exists h files "File" name = path_exists files "File" name.

(** The message [execute] logs when the e-invoice helper fails. *)
Definition einvoice_failure_message (h : Host) (lang name : string) : string :=
  host_str_format h
    (host_translate h lang "Failed to attach XML to PDF for Sales Invoice {0}")
    name.

(** ** More sample hosts *)

(** A host whose generator returns no data. *)
Definition none_host : Host :=
  mkHost
    (host_get_single sample_host) (host_get_doc sample_host)
    (fun _ _ _ _ => Ok None)
    (host_get_print sample_host) (host_get_pdf sample_host)
    (fun _ _ _ => true)
    (host_db_exists sample_host) (host_get_installed_apps sample_host)
    (host_attach_xml_to_pdf sample_host) (host_format_autoname sample_host)
    (host_translate sample_host) (host_str_format sample_host).

(** [template.format(arg)] for templates whose only field is [{0}]. *)
Fixpoint format_first_argument (template arg : string) : string :=
  match template with
  | String "{" (String "0" (String "}" rest)) =>
      arg ++ format_first_argument rest arg
  | String c rest => String c (format_first_argument rest arg)
  | EmptyString => EmptyString
  end.

Definition pdf_with_xml : bytes := (pdf_wk ++ [x3c; x78; x6d; x6c; x3e])%list.

(** A host with the e-invoice app, whose helper embeds the XML. *)
Definition einvoice_host : Host :=
  mkHost
    (host_get_single sample_host) (host_get_doc sample_host)
    (host_render_pdf sample_host)
    (host_get_print sample_host) (host_get_pdf sample_host)
    (host_db_get_value sample_host)
    (host_db_exists sample_host) ["frappe"; "erpnext"; "eu_einvoice"]
    (fun _ _ => Ok pdf_with_xml) (host_format_autoname sample_host)
    (host_translate sample_host) format_first_argument.

(** A host with the e-invoice app, whose helper fails. *)
Definition broken_einvoice_host : Host :=
  mkHost
    (host_get_single sample_host) (host_get_doc sample_host)
    (host_render_pdf sample_host)
    (host_get_print sample_host) (host_get_pdf sample_host)
    (host_db_get_value sample_host)
    (host_db_exists sample_host) ["frappe"; "erpnext"; "eu_einvoice"]
    (fun _ _ => Err (OtherException "ValueError" "no XML for invoice"))
    (host_format_autoname sample_host)
    (host_translate sample_host) format_first_argument.

Definition quotation_row : EnabledRow :=
  mkEnabledRow "Quotation" None (Some "Quotation Format") None None.

Definition second_order_row : EnabledRow :=
  mkEnabledRow "Sales Order" None (Some "Other Format") (Some "Letterhead B")
               (Some (Some "Home/Attachments")).

(** A host with several settings rows, two of them for one doctype. *)
Definition many_rows_host : Host :=
  mkHost
    (fun _ => mkSettings [quotation_row; sample_row; second_order_row])
    (host_get_doc sample_host)
    (host_render_pdf sample_host)
    (host_get_print sample_host) (host_get_pdf sample_host)
    (host_db_get_value sample_host)
    (host_db_exists sample_host) (host_get_installed_apps sample_host)
    (host_attach_xml_to_pdf sample_host) (host_format_autoname sample_host)
    (host_translate sample_host) (host_str_format sample_host).

Definition world_after_none : World :=
  Eval vm_compute in
    snd (execute none_host "Sales Order" "SO/2024/0001" None None true
                 None (Some "Standard") None world0).

Definition world_after_broken_einvoice : World :=
  Eval vm_compute in
    snd (execute_body broken_einvoice_host "Sales Invoice" "SINV-0001" None None
                      true None (Some "Standard") None world0).

Definition world_after_order_on_einvoice_site : World :=
  Eval vm_compute in
    snd (execute_body einvoice_host "Sales Order" "SO/2024/0001" None None
                      true None (Some "Standard") None world0).

(** * Properties *)

#[local] Arguments String.eqb : simpl never.
#[local] Arguments String.append : simpl never.
#[local] Arguments String.concat : simpl never.
#[local] Arguments replace : simpl never.
#[local] Arguments lower : simpl never.
#[local] Arguments startswith : simpl never.
#[local] Arguments fmt_Z : simpl never.
#[local] Arguments mem : simpl never.

(** ** Lists and strings *)

Lemma skipn_length_app {A} (l t : list A) : skipn (length l) (l ++ t)%list = t.
Proof. induction l as [|a l IH]; simpl; auto. Qed.

Lemma since_app (w w' : World) (t : list Call) :
  trace w' = (trace w ++ t)%list -> since w w' = t.
Proof. intros E. unfold since. rewrite E. apply skipn_length_app. Qed.

Lemma length_append (s p : string) :
  String.length (s ++ p) = (String.length s + String.length p)%nat.
Proof. induction s as [|c s IH]; simpl; auto. Qed.

Lemma substring_all (p : string) : substring 0 (String.length p) p = p.
Proof. induction p as [|c p IH]; simpl; [reflexivity | now rewrite IH]. Qed.

Lemma substring_append_suffix (s p : string) :
  substring (String.length s) (String.length p) (s ++ p) = p.
Proof.
  induction s as [|c s IH]; simpl.
  - apply substring_all.
  - exact IH.
Qed.

Lemma endswith_append (s p : string) : endswith (s ++ p) p = true.
Proof.
  unfold endswith. rewrite length_append.
  replace (String.length s + String.length p - String.length p)%nat
    with (String.length s) by lia.
  rewrite substring_append_suffix, String.eqb_refl.
  rewrite andb_true_r. apply Nat.leb_le. lia.
Qed.

Lemma replace_removes (old new : ascii) (s : string) :
  Ascii.eqb new old = false -> contains_char old (replace old new s) = false.
Proof.
  intros Hne. induction s as [|c s IH]; simpl; [reflexivity|].
  rewrite IH, orb_false_r.
  destruct (Ascii.eqb c old) eqn:E; [exact Hne | exact E].
Qed.

(** ** The functions one by one

    Each function of the module is summarised by the calls it makes and
    the world it leaves. *)

#[local] Arguments set_name_from_naming_options : simpl never.
#[local] Arguments save_and_attach : simpl never.
#[local] Arguments create_folder : simpl never.
#[local] Arguments get_pdf_data : simpl never.
#[local] Arguments publish_progress : simpl never.

Ltac reassoc := repeat rewrite <- app_assoc; cbn [app].

(** Unfold the monad and the host services, then compute. *)
Ltac run :=
  unfold bindM, ret, early_return, raise, of_result, call,
    frappe_get_single, frappe_log, frappe_log_error, frappe_msgprint,
    frappe_get_doc, PrintFormatGenerator_render_pdf, publish_realtime,
    frappe_db_exists, create_new_folder, frappe_db_get_value, frappe_get_print,
    get_pdf, frappe_get_installed_apps, attach_xml_to_pdf, _format_autoname,
    file_save, tr, emit, get_lang, get_store, insert_file;
  cbn.

Lemma bindM_normal {A B} (c : M A) (k : A -> M B) w a w' :
  c w = (Normal a, w') -> bindM c k w = k a w'.
Proof. intros E. unfold bindM. now rewrite E. Qed.

Lemma bindM_return {A B} (c : M A) (k : A -> M B) w w' :
  c w = (Return, w') -> bindM c k w = (Return, w').
Proof. intros E. unfold bindM. now rewrite E. Qed.

Lemma bindM_raise {A B} (c : M A) (k : A -> M B) w e w' :
  c w = (Raise e, w') -> bindM c k w = (Raise e, w').
Proof. intros E. unfold bindM. now rewrite E. Qed.

(** One statement of a sequence, run by its summary. *)
Ltac step lem :=
  erewrite bindM_normal by apply lem;
  cbv beta; cbn [store local_lang trace].

Section Runs.

Variable h : Host.

Lemma set_name_from_naming_options_run autoname doc w :
  set_name_from_naming_options h autoname doc w
  = (Normal (naming_options_name h autoname doc),
     mkWorld (store w) (local_lang w) (trace w ++ naming_calls autoname doc)%list).
Proof.
  destruct w as [s l t].
  unfold set_name_from_naming_options, naming_options_name, naming_calls.
  destruct (startswith (lower autoname) "format:"); run.
  - reflexivity.
  - now rewrite app_nil_r.
Qed.

Lemma save_and_attach_run content to_doctype to_name folder auto_name w :
  save_and_attach h content to_doctype to_name folder auto_name w
  = (Normal tt,
     mkWorld (store w ++ [pdf_file h content to_doctype to_name folder auto_name])%list
             (local_lang w)
             (trace w ++ save_and_attach_calls h content to_doctype to_name
                                               folder auto_name)%list).
Proof.
  destruct w as [s l t].
  unfold save_and_attach, save_and_attach_calls, pdf_file, chosen_base_name.
  destruct (truthy auto_name) as [a|].
  - run. rewrite set_name_from_naming_options_run. run. reassoc. reflexivity.
  - run. reassoc. reflexivity.
Qed.

Lemma create_folder_run folder parent w :
  create_folder h folder parent w
  = (Normal (String.concat "/" [parent; folder]),
     mkWorld (store w ++ create_folder_files h (store w) folder parent)%list
             (local_lang w)
             (trace w ++ create_folder_calls h (store w) folder parent)%list).
Proof.
  destruct w as [s l t].
  unfold create_folder, create_folder_files, create_folder_calls. run.
  destruct (host_db_exists h s "File" (String.concat "/" [parent; folder])); run.
  - rewrite app_nil_r. reflexivity.
  - reassoc. reflexivity.
Qed.

Lemma publish_progress_run doctype name percent w :
  publish_progress h doctype name percent w
  = (Normal tt,
     mkWorld (store w) (local_lang w)
             (trace w ++ [CPublishRealtime
                            (progress_event h (local_lang w) doctype name percent)])%list).
Proof. destruct w as [s l t]. reflexivity. Qed.

Lemma get_pdf_data_run doctype name print_format letterhead w :
  get_pdf_data h doctype name print_format letterhead w
  = (outcome_of_result
       (get_pdf_data_result h (local_lang w) doctype name print_format letterhead),
     mkWorld (store w) (local_lang w)
             (trace w ++ get_pdf_data_calls h (local_lang w) doctype name
                                            print_format letterhead)%list).
Proof.
  destruct w as [s l t].
  unfold get_pdf_data, get_pdf_data_result, get_pdf_data_calls. run.
  destruct (host_get_print h l doctype name print_format letterhead) as [html|e]; run.
  - destruct (host_get_pdf h html) as [pdf|e]; run; reassoc; reflexivity.
  - reassoc. reflexivity.
Qed.

Lemma attach_pdf_body_run doc event w :
  attach_pdf_body h doc event w = attach_pdf_summary h doc w.
Proof.
  destruct w as [s l t].
  unfold attach_pdf_body, attach_pdf_summary, try_, attach_error_message. run.
  destruct (settings_get_enabled_for
              (host_get_single h "PDF on Submit Settings") (doc_doctype doc))
    as [|row rest]; run.
  - reassoc. reflexivity.
  - destruct (host_render_pdf h l (row_print_format row) doc (row_letter_head row))
      as [[pdf|]|e]; run.
    + rewrite save_and_attach_run. run. reassoc. reflexivity.
    + reassoc. reflexivity.
    + destruct e; run; reassoc; reflexivity.
Qed.

(** The part of [execute] after the [with] block, from the rendered PDF. *)
Lemma execute_tail_run (doctype name : string) (show_progress : bool)
    (auto_name target : option string) (pdf : bytes) s l t :
  ((einvoice <-
      (if doctype =? "Sales Invoice" then
         apps <- frappe_get_installed_apps h ;;
         ret (mem "eu_einvoice" apps)
       else ret false) ;;
    pdf_data <-
      (if einvoice then
         try_ (attach_xml_to_pdf h name pdf)
           [ (is_Exception, fun _ =>
                template <- tr h "Failed to attach XML to PDF for Sales Invoice {0}" ;;
                let msg := host_str_format h template name in
                (if show_progress then frappe_msgprint msg else ret tt) ;;
                frappe_log_error msg ;;
                ret pdf) ]
       else ret pdf) ;;
    (if show_progress then publish_progress h doctype name 66 else ret tt) ;;
    save_and_attach h pdf_data doctype name target auto_name ;;
    frappe_log ("PDF saved and attached successfully for " ++ name) ;;
    (if show_progress then publish_progress h doctype name 100 else ret tt))
     (mkWorld s l t))
  = (Normal tt,
     mkWorld
       (s ++ [pdf_file h (einvoice_pdf h doctype name pdf) doctype name target auto_name])%list
       l
       (t ++ einvoice_calls h l doctype name show_progress pdf
          ++ progress_calls h show_progress l doctype name 66
          ++ save_and_attach_calls h (einvoice_pdf h doctype name pdf) doctype name
                                   target auto_name
          ++ [CLog ("PDF saved and attached successfully for " ++ name)]
          ++ progress_calls h show_progress l doctype name 100)%list).
Proof.
  unfold einvoice_pdf, einvoice_calls, einvoice_applies, progress_calls, try_.
  destruct (doctype =? "Sales Invoice"); run;
    [destruct (mem "eu_einvoice" (host_get_installed_apps h)); run;
     [destruct (host_attach_xml_to_pdf h name pdf) as [pdf'|e]; run|]|];
    destruct show_progress; run;
    repeat (rewrite ?publish_progress_run, ?save_and_attach_run; run);
    reassoc; reflexivity.
Qed.

Lemma progress_run (show_progress : bool) (doctype name : string) (percent : Z) w :
  (if show_progress then publish_progress h doctype name percent else ret tt) w
  = (Normal tt,
     mkWorld (store w) (local_lang w)
       (trace w ++ progress_calls h show_progress (local_lang w) doctype name percent)%list).
Proof.
  destruct w as [s l t]. unfold progress_calls.
  destruct show_progress; [apply publish_progress_run|].
  cbn. now rewrite app_nil_r.
Qed.

Lemma title_folder_run (title : option string) (doctype_folder : string) w :
  match truthy title with
  | Some title => f <- create_folder h title doctype_folder ;; ret (Some f)
  | None => ret None
  end w
  = (Normal match truthy title with
            | Some title => Some (String.concat "/" [doctype_folder; title])
            | None => None
            end,
     mkWorld
       (store w ++ match truthy title with
                   | Some title => create_folder_files h (store w) title doctype_folder
                   | None => []
                   end)%list
       (local_lang w)
       (trace w ++ match truthy title with
                   | Some title => create_folder_calls h (store w) title doctype_folder
                   | None => []
                   end)%list).
Proof.
  destruct w as [s l t]. destruct (truthy title) as [ttl|].
  - step create_folder_run. reflexivity.
  - cbn. now rewrite !app_nil_r.
Qed.

(** The statements inside the [with] block of [execute]. *)
Lemma generate_run (doctype name : string) (print_format letter_head : option string)
    s l t :
  (beta <- frappe_db_get_value h "Print Format" print_format
                               "print_format_builder_beta" ;;
   if beta then
     doc <- frappe_get_doc h doctype name ;;
     try_ (
       pdf_data <- PrintFormatGenerator_render_pdf h print_format doc letter_head ;;
       match pdf_data with
       | None =>
           frappe_log_error "PDF data is None. Skipping attachment." ;;
           early_return
       | Some pdf_data =>
           frappe_log ("PDF data generated successfully for " ++ name) ;;
           ret pdf_data
       end)
     [ (is_TypeError, fun e =>
          frappe_log_error ("Error generating PDF: " ++ str_exn e) ;;
          early_return) ]
   else
     get_pdf_data h doctype name print_format letter_head) (mkWorld s l t)
  = (generate_outcome h l doctype name print_format letter_head,
     mkWorld s l (t ++ generate_calls h l doctype name print_format letter_head)%list).
Proof.
  unfold generate_outcome, generate_calls, try_. run.
  destruct (host_db_get_value h "Print Format" print_format
                              "print_format_builder_beta"); run.
  - destruct (host_render_pdf h l print_format (host_get_doc h doctype name)
                              letter_head) as [[pdf|]|[msg|cls msg]];
      run; reassoc; reflexivity.
  - rewrite get_pdf_data_run. run. reassoc. reflexivity.
Qed.

Lemma print_language_run {A} (lang : option string) (body : M A)
    (O : string -> outcome A) (C : string -> list Call) :
  (forall s l t, body (mkWorld s l t) = (O l, mkWorld s l (t ++ C l)%list)) ->
  forall s l0 t,
    let l := language_in_effect lang (mkWorld s l0 t) in
    print_language lang body (mkWorld s l0 t)
    = (O l,
       mkWorld s (match O l with Raise _ => l | _ => l0 end) (t ++ C l)%list).
Proof.
  intros Hbody s l0 t. unfold print_language, language_in_effect.
  destruct (truthy lang) as [l|]; cbn.
  - destruct (String.eqb_spec l l0) as [->|Hne].
    + rewrite Hbody. destruct (O l0); reflexivity.
    + unfold set_lang. cbn. rewrite Hbody. destruct (O l); reflexivity.
  - rewrite Hbody. destruct (O l0); reflexivity.
Qed.

Theorem execute_body_run doctype name title lang show_progress
    auto_name print_format letter_head w :
  execute_body h doctype name title lang show_progress
               auto_name print_format letter_head w
  = execute_summary h doctype name title lang show_progress
                    auto_name print_format letter_head w.
Proof.
  destruct w as [s l0 t].
  unfold execute_body, execute_summary, folders_files, folders_calls,
    execute_target_folder, doctype_folder_name.
  cbn [store local_lang trace].
  step progress_run. step create_folder_run. step title_folder_run.
  step progress_run.
  pose proof (print_language_run lang _ _ _
                (generate_run doctype name print_format letter_head)
                (s ++ create_folder_files h s doctype "Home"
                   ++ match truthy title with
                      | Some ttl =>
                          create_folder_files h
                            (s ++ create_folder_files h s doctype "Home") ttl
                            (String.concat "/" ["Home"; doctype])
                      | None => []
                      end)%list l0) as Hgen.
  unfold language_in_effect in *. cbn [local_lang] in *.
  set (l := match truthy lang with Some l => l | None => l0 end) in *.
  destruct (generate_outcome h l doctype name print_format letter_head) as [pdf| |e].
  - erewrite bindM_normal by (rewrite <- app_assoc; apply Hgen). cbv beta.
    rewrite execute_tail_run. reassoc. reflexivity.
  - erewrite bindM_return by (rewrite <- app_assoc; apply Hgen).
    reassoc. reflexivity.
  - erewrite bindM_raise by (rewrite <- app_assoc; apply Hgen).
    reassoc. reflexivity.
Qed.

End Runs.

(** ** Projections of a trace *)

Lemma published_app t1 t2 :
  published (t1 ++ t2) = (published t1 ++ published t2)%list.
Proof.
  induction t1 as [|c t1 IH]; [reflexivity|].
  destruct c; cbn; rewrite ?IH; reflexivity.
Qed.

Lemma saved_files_app t1 t2 :
  saved_files (t1 ++ t2) = (saved_files t1 ++ saved_files t2)%list.
Proof.
  induction t1 as [|c t1 IH]; [reflexivity|].
  destruct c; cbn; rewrite ?IH; reflexivity.
Qed.

Lemma logged_errors_app t1 t2 :
  logged_errors (t1 ++ t2) = (logged_errors t1 ++ logged_errors t2)%list.
Proof.
  induction t1 as [|c t1 IH]; [reflexivity|].
  destruct c; cbn; rewrite ?IH; reflexivity.
Qed.

Lemma classify_app t1 t2 :
  classify (t1 ++ t2) = (classify t1 ++ classify t2)%list.
Proof.
  induction t1 as [|c t1 IH]; [reflexivity|].
  destruct c; cbn; rewrite ?IH; reflexivity.
Qed.

Section Calls.

Variable h : Host.

Lemma naming_calls_quiet autoname doc :
  classify (naming_calls autoname doc) = []
  /\ published (naming_calls autoname doc) = []
  /\ saved_files (naming_calls autoname doc) = []
  /\ logged_errors (naming_calls autoname doc) = []
  /\ existsb is_render_call (naming_calls autoname doc) = false.
Proof.
  unfold naming_calls.
  destruct (startswith (lower autoname) "format:"); repeat split.
Qed.

Lemma save_and_attach_calls_spec content to_doctype to_name folder auto_name :
  let t := save_and_attach_calls h content to_doctype to_name folder auto_name in
  classify t = [SaveFile]
  /\ published t = []
  /\ saved_files t = [pdf_file h content to_doctype to_name folder auto_name]
  /\ logged_errors t = [].
Proof.
  unfold save_and_attach_calls.
  destruct (truthy auto_name) as [a|]; cbn.
  - destruct (naming_calls_quiet a (host_get_doc h to_doctype to_name))
      as (Hc & Hp & Hs & He & _).
    rewrite classify_app, published_app, saved_files_app, logged_errors_app.
    rewrite Hc, Hp, Hs, He. repeat split.
  - repeat split.
Qed.

Lemma create_folder_calls_spec files folder parent :
  let t := create_folder_calls h files folder parent in
  squash (classify t) = [CreateFolderPath]
  /\ (exists n, classify t = repeat CreateFolderPath (S n))
  /\ published t = [] /\ saved_files t = [] /\ logged_errors t = [].
Proof.
  unfold create_folder_calls.
  destruct (host_db_exists h files "File" (String.concat "/" [parent; folder])); cbn.
  - repeat split. now exists 0%nat.
  - repeat split. now exists 1%nat.
Qed.

Lemma folders_calls_spec files doctype title :
  let t := folders_calls h files doctype title in
  (exists n, classify t = repeat CreateFolderPath (S n))
  /\ published t = [] /\ saved_files t = [] /\ logged_errors t = [].
Proof.
  unfold folders_calls.
  destruct (create_folder_calls_spec files doctype "Home")
    as (_ & [n Hn] & Hp & Hs & He).
  rewrite classify_app, published_app, saved_files_app, logged_errors_app.
  rewrite Hn, Hp, Hs, He.
  destruct (truthy title) as [ttl|].
  - destruct (create_folder_calls_spec
                (files ++ create_folder_files h files doctype "Home") ttl
                (doctype_folder_name doctype))
      as (_ & [m Hm] & Hp' & Hs' & He').
    rewrite Hm, Hp', Hs', He'. repeat split.
    exists (n + S m)%nat. rewrite <- repeat_app. reflexivity.
  - repeat split. exists n. now rewrite app_nil_r.
Qed.

Lemma progress_calls_spec show_progress lang doctype name percent :
  let t := progress_calls h show_progress lang doctype name percent in
  classify t = (if show_progress then [PublishProgress] else [])
  /\ published t
     = (if show_progress then [progress_event h lang doctype name percent] else [])
  /\ saved_files t = [] /\ logged_errors t = [].
Proof. destruct show_progress; repeat split. Qed.

Lemma einvoice_calls_spec lang doctype name show_progress pdf :
  let t := einvoice_calls h lang doctype name show_progress pdf in
  classify t = [] /\ published t = [] /\ saved_files t = [].
Proof.
  unfold einvoice_calls.
  destruct (doctype =? "Sales Invoice"); [|repeat split].
  destruct (mem "eu_einvoice" (host_get_installed_apps h)); [|repeat split].
  destruct (host_attach_xml_to_pdf h name pdf); [repeat split|].
  destruct show_progress; repeat split.
Qed.

(** The calls of a rendering that produced a PDF. *)
Lemma generate_calls_spec lang doctype name print_format letter_head pdf :
  generate_outcome h lang doctype name print_format letter_head = Normal pdf ->
  let t := generate_calls h lang doctype name print_format letter_head in
  (exists n, classify t = repeat RenderPdf (S n))
  /\ published t = [] /\ saved_files t = [] /\ logged_errors t = [].
Proof.
  unfold generate_outcome, generate_calls, get_pdf_data_result, get_pdf_data_calls.
  destruct (host_db_get_value h "Print Format" print_format
                              "print_format_builder_beta").
  - destruct (host_render_pdf h lang print_format (host_get_doc h doctype name)
                              letter_head) as [[p|]|[msg|cls msg]];
      try discriminate.
    intros _. cbn. repeat split. now exists 0%nat.
  - destruct (host_get_print h lang doctype name print_format letter_head)
      as [html|e]; [|discriminate].
    destruct (host_get_pdf h html) as [p|e]; [|discriminate].
    intros _. cbn. repeat split. now exists 1%nat.
Qed.

(** The calls of a rendering, whatever it produced: no progress event
    and no saved file. *)
Lemma generate_calls_quiet lang doctype name print_format letter_head :
  let t := generate_calls h lang doctype name print_format letter_head in
  published t = [] /\ saved_files t = [].
Proof.
  unfold generate_calls, get_pdf_data_calls.
  destruct (host_db_get_value h "Print Format" print_format
                              "print_format_builder_beta").
  - destruct (host_render_pdf h lang print_format (host_get_doc h doctype name)
                              letter_head) as [[p|]|[msg|cls msg]];
      repeat split.
  - destruct (host_get_print h lang doctype name print_format letter_head)
      as [html|e]; [|repeat split].
    destruct (host_get_pdf h html) as [p|e]; repeat split.
Qed.

End Calls.

(** Runs of one step squash to that step. *)
Lemma squash_repeat (s : Step) (n : nat) (r : list Step) :
  squash (repeat s (S n) ++ r) = squash (s :: r).
Proof.
  induction n as [|n IH]; [reflexivity|].
  change (repeat s (S (S n)) ++ r)%list with (s :: (repeat s (S n) ++ r))%list.
  cbn [squash] in *. rewrite IH.
  destruct (squash r) as [|b r'].
  - destruct s; reflexivity.
  - destruct (Step_eqb s b) eqn:E.
    + rewrite E. reflexivity.
    + destruct s; reflexivity.
Qed.

(** ** Runs of [execute] by outcome *)

Section ExecuteRuns.

Variable h : Host.
Variables doctype name : string.
Variables title lang : option string.
Variable show_progress : bool.
Variables auto_name print_format letter_head : option string.

Lemma execute_body_normal w w' :
  execute_body h doctype name title lang show_progress
               auto_name print_format letter_head w = (Normal tt, w') ->
  exists pdf : bytes,
    generate_outcome h (language_in_effect lang w) doctype name
                     print_format letter_head = Normal pdf
    /\ since w w'
       = (calls_before h doctype name title lang show_progress
                       print_format letter_head w
          ++ calls_after h doctype name title show_progress auto_name w pdf)%list
    /\ store w'
       = (store w ++ folders_files h (store w) doctype title
            ++ [pdf_file h (einvoice_pdf h doctype name pdf) doctype name
                         (Some (execute_target_folder doctype title)) auto_name])%list
    /\ local_lang w' = local_lang w.
Proof.
  rewrite execute_body_run. unfold execute_summary.
  destruct (generate_outcome h (language_in_effect lang w) doctype name
                             print_format letter_head) as [pdf| |e];
    intros E; try discriminate E.
  apply (f_equal snd) in E. cbn [snd] in E. subst w'.
  exists pdf. split; [reflexivity|]. cbn [store local_lang trace].
  split; [|split; [now rewrite <- app_assoc | reflexivity]].
  apply since_app. cbn [trace]. unfold calls_before, calls_after.
  now rewrite <- !app_assoc.
Qed.

Lemma execute_body_stopped o w w' :
  execute_body h doctype name title lang show_progress
               auto_name print_format letter_head w = (o, w') ->
  o <> Normal tt ->
  generate_outcome h (language_in_effect lang w) doctype name
                   print_format letter_head
  = match o with Normal _ => Return | Return => Return | Raise e => Raise e end
  /\ since w w' = calls_before h doctype name title lang show_progress
                              print_format letter_head w
  /\ store w' = (store w ++ folders_files h (store w) doctype title)%list.
Proof.
  rewrite execute_body_run. unfold execute_summary.
  destruct (generate_outcome h (language_in_effect lang w) doctype name
                             print_format letter_head) as [pdf| |e];
    intros E Hne;
    pose proof (f_equal fst E) as Eo; pose proof (f_equal snd E) as Ew;
    cbn [fst snd] in Eo, Ew; subst o w'; try congruence;
    (split; [reflexivity|]; split; [|reflexivity]);
    apply since_app; reflexivity.
Qed.

End ExecuteRuns.

(** ** The claims *)

(** C1.  When the settings hold a row for the document's doctype and the
    print-format generator returns PDF data (not [None]), [attach_pdf]
    completes, stores exactly one new File whose content is that PDF, and
    the File is attached to the document: its [attached_to_doctype] is
    [doc.doctype] and its [attached_to_name] is [doc.name]. *)
Theorem attach_pdf_attaches_rendered_pdf :
  forall (h : Host) (doc : Document) (event : option string) (w : World)
         (row : EnabledRow) (rest : list EnabledRow) (pdf : bytes),
    settings_get_enabled_for (host_get_single h "PDF on Submit Settings")
                             (doc_doctype doc) = row :: rest ->
    host_render_pdf h (local_lang w) (row_print_format row) doc
                    (row_letter_head row) = Ok (Some pdf) ->
    exists (file : File) (w' : World),
      attach_pdf h doc event w = (Normal tt, w')
      /\ store w' = (store w ++ [file])%list
      /\ saved_files (since w w') = [file]
      /\ content file = Some pdf
      /\ attached_to_doctype file = Some (doc_doctype doc)
      /\ attached_to_name file = Some (doc_name doc).
Proof.
  intros h doc event w row rest pdf Hrow Hpdf.
  unfold attach_pdf, call. rewrite attach_pdf_body_run.
  unfold attach_pdf_summary. rewrite Hrow, Hpdf.
  eexists. eexists. split; [reflexivity|]. cbn [store trace].
  split; [reflexivity|]. split; [|repeat split].
  erewrite since_app by reflexivity.
  rewrite !saved_files_app.
  destruct (save_and_attach_calls_spec h pdf (doc_doctype doc) (doc_name doc)
              (getattr_target_folder row (Some "Home")) (row_auto_name row))
    as (_ & _ & Hs & _).
  rewrite Hs. reflexivity.
Qed.

Lemma attach_pdf_attaches_rendered_pdf_witness :
  settings_get_enabled_for (host_get_single sample_host "PDF on Submit Settings")
                           (doc_doctype sample_doc) = [sample_row]
  /\ host_render_pdf sample_host (local_lang world0) (row_print_format sample_row)
                     sample_doc (row_letter_head sample_row) = Ok (Some pdf_weasy)
  /\ exists (file : File) (w' : World),
       attach_pdf sample_host sample_doc None world0 = (Normal tt, w')
       /\ store w' = (store world0 ++ [file])%list
       /\ saved_files (since world0 w') = [file]
       /\ content file = Some pdf_weasy
       /\ attached_to_doctype file = Some (doc_doctype sample_doc)
       /\ attached_to_name file = Some (doc_name sample_doc).
Proof.
  split; [reflexivity|]. split; [reflexivity|].
  apply (attach_pdf_attaches_rendered_pdf sample_host sample_doc None world0
           sample_row [] pdf_weasy); reflexivity.
Defined.

(** C6.  [get_pdf_data] is the pipeline Document -> HTML -> PDF: its
    result is [get_pdf] applied to the HTML that the host's [get_print]
    returns for the document, print format and letterhead (an exception of
    either stage is its exception), and the two stages are called in that
    order. *)
Theorem get_pdf_data_is_get_pdf_of_get_print :
  forall (h : Host) (doctype name : string) (print_format letterhead : option string)
         (w : World),
    let run := get_pdf_data h doctype name print_format letterhead w in
    fst run
    = match host_get_print h (local_lang w) doctype name print_format letterhead with
      | Ok html => outcome_of_result (host_get_pdf h html)
      | Err e => Raise e
      end
    /\ filter is_render_call (since w (snd run))
       = CGetPrint doctype name print_format letterhead
         :: match host_get_print h (local_lang w) doctype name print_format
                                 letterhead with
            | Ok html => [CGetPdf html]
            | Err _ => []
            end.
Proof.
  intros h doctype name print_format letterhead w. cbv zeta.
  rewrite get_pdf_data_run. cbn [fst snd].
  erewrite since_app by reflexivity.
  unfold get_pdf_data_result, get_pdf_data_calls.
  destruct (host_get_print h (local_lang w) doctype name print_format letterhead)
    as [html|e]; [|split; reflexivity].
  destruct (host_get_pdf h html) as [pdf|e]; split; reflexivity.
Qed.

(** C7.  The File that [save_and_attach] creates is public: whatever the
    content, target document, folder and [auto_name], the call completes,
    saves exactly one File, and that File has [is_private = 0]. *)
Theorem save_and_attach_file_is_public :
  forall (h : Host) (content : bytes) (to_doctype to_name : string)
         (folder auto_name : option string) (w : World),
    exists (file : File) (w' : World),
      save_and_attach h content to_doctype to_name folder auto_name w
      = (Normal tt, w')
      /\ store w' = (store w ++ [file])%list
      /\ saved_files (since w w') = [file]
      /\ is_private file = 0%Z.
Proof.
  intros h content to_doctype to_name folder auto_name w.
  rewrite save_and_attach_run.
  eexists. eexists. split; [reflexivity|]. cbn [store].
  split; [reflexivity|]. split; [|reflexivity].
  erewrite since_app by reflexivity.
  apply (save_and_attach_calls_spec h content to_doctype to_name folder auto_name).
Qed.

(** C8.  The file name of the File that [save_and_attach] creates is the
    chosen base name (the name [set_name_from_naming_options] returns when
    [auto_name] is given, else the document name) with every ["/"]
    replaced by ["-"], followed by [".pdf"]: it ends in [".pdf"] and its
    base part has no ["/"]. *)
Theorem save_and_attach_file_name :
  forall (h : Host) (content : bytes) (to_doctype to_name : string)
         (folder auto_name : option string) (w : World),
    exists (file : File) (w' : World) (chosen : string),
      save_and_attach h content to_doctype to_name folder auto_name w
      = (Normal tt, w')
      /\ saved_files (since w w') = [file]
      /\ match truthy auto_name with
         | Some autoname =>
             forall w0,
               fst (set_name_from_naming_options
                      h autoname (host_get_doc h to_doctype to_name) w0)
               = Normal chosen
         | None => chosen = to_name
         end
      /\ file_name file = Some (replace "/" "-" chosen ++ ".pdf")
      /\ endswith (replace "/" "-" chosen ++ ".pdf") ".pdf" = true
      /\ contains_char "/" (replace "/" "-" chosen) = false.
Proof.
  intros h content to_doctype to_name folder auto_name w.
  rewrite save_and_attach_run.
  exists (pdf_file h content to_doctype to_name folder auto_name).
  eexists. exists (chosen_base_name h to_doctype to_name auto_name).
  split; [reflexivity|]. split; [|split; [|split; [reflexivity|split]]].
  - erewrite since_app by reflexivity.
    apply (save_and_attach_calls_spec h content to_doctype to_name folder auto_name).
  - unfold chosen_base_name. destruct (truthy auto_name) as [a|]; [|reflexivity].
    intros w0. now rewrite set_name_from_naming_options_run.
  - apply endswith_append.
  - now apply replace_removes.
Qed.

(** C9.  When the settings hold no row for the document's doctype,
    [attach_pdf] returns without raising after two calls, the settings
    fetch and one [log_error]; it calls no renderer, saves no File and
    leaves the File store as it was. *)
Theorem attach_pdf_without_enabled_doctype :
  forall (h : Host) (doc : Document) (event : option string) (w : World),
    settings_get_enabled_for (host_get_single h "PDF on Submit Settings")
                             (doc_doctype doc) = [] ->
    exists w' : World,
      attach_pdf h doc event w = (Normal tt, w')
      /\ since w w'
         = [CGetSingle "PDF on Submit Settings";
            CLogError ("No enabled doctype found for " ++ doc_doctype doc)]
      /\ logged_errors (since w w')
         = ["No enabled doctype found for " ++ doc_doctype doc]
      /\ existsb is_render_call (since w w') = false
      /\ saved_files (since w w') = []
      /\ store w' = store w.
Proof.
  intros h doc event w Hnone.
  unfold attach_pdf, call. rewrite attach_pdf_body_run.
  unfold attach_pdf_summary. rewrite Hnone.
  eexists. split; [reflexivity|].
  erewrite since_app by reflexivity. repeat split.
Qed.

Lemma attach_pdf_without_enabled_doctype_witness :
  settings_get_enabled_for (host_get_single unconfigured_host "PDF on Submit Settings")
                           (doc_doctype sample_doc) = []
  /\ exists w' : World,
       attach_pdf unconfigured_host sample_doc None world0 = (Normal tt, w')
       /\ since world0 w'
          = [CGetSingle "PDF on Submit Settings";
             CLogError ("No enabled doctype found for " ++ doc_doctype sample_doc)]
       /\ logged_errors (since world0 w')
          = ["No enabled doctype found for " ++ doc_doctype sample_doc]
       /\ existsb is_render_call (since world0 w') = false
       /\ saved_files (since world0 w') = []
       /\ store w' = store world0.
Proof.
  split; [reflexivity|].
  apply (attach_pdf_without_enabled_doctype unconfigured_host sample_doc None world0).
  reflexivity.
Defined.

(** C3.  A run of [execute] with [show_progress] true that reaches the end
    of the function publishes exactly four realtime events, all "progress"
    events for the target document, with percent 0, 33, 66, 100 in that
    order; a run with [show_progress] false publishes no event, however it
    ends. *)
Theorem execute_progress_events :
  forall (h : Host) (doctype name : string) (title lang : option string)
         (auto_name print_format letter_head : option string) (w : World),
    (forall w' : World,
        execute_body h doctype name title lang true
                     auto_name print_format letter_head w = (Normal tt, w') ->
        progress_percents (since w w') = [0; 33; 66; 100]%Z
        /\ map ev_percent (published (since w w')) = [0; 33; 66; 100]%Z
        /\ Forall (fun ev => ev_event ev = "progress"
                             /\ ev_doctype ev = doctype
                             /\ ev_docname ev = name)
                  (published (since w w')))
    /\ (forall (o : outcome unit) (w' : World),
           execute h doctype name title lang false
                   auto_name print_format letter_head w = (o, w') ->
           published (since w w') = []).
Proof.
  intros h doctype name title lang auto_name print_format letter_head w. split.
  - intros w' Hrun.
    destruct (execute_body_normal _ _ _ _ _ _ _ _ _ _ _ Hrun)
      as (pdf & Hgen & Hsince & _).
    rewrite Hsince. unfold calls_before, calls_after.
    destruct (folders_calls_spec h (store w) doctype title) as (_ & Hf & _).
    destruct (generate_calls_spec h _ _ _ _ _ _ Hgen) as (_ & Hg & _).
    destruct (einvoice_calls_spec h (local_lang w) doctype name true pdf)
      as (_ & He & _).
    destruct (save_and_attach_calls_spec h (einvoice_pdf h doctype name pdf)
                doctype name (Some (execute_target_folder doctype title)) auto_name)
      as (_ & Hs & _).
    cbv zeta in *.
    assert (Hpub :
      published
        (progress_calls h true (local_lang w) doctype name 0
         ++ folders_calls h (store w) doctype title
         ++ progress_calls h true (local_lang w) doctype name 33
         ++ generate_calls h (language_in_effect lang w) doctype name
                           print_format letter_head
         ++ einvoice_calls h (local_lang w) doctype name true pdf
         ++ progress_calls h true (local_lang w) doctype name 66
         ++ save_and_attach_calls h (einvoice_pdf h doctype name pdf) doctype name
              (Some (execute_target_folder doctype title)) auto_name
         ++ [CLog ("PDF saved and attached successfully for " ++ name)]
         ++ progress_calls h true (local_lang w) doctype name 100)%list
      = [progress_event h (local_lang w) doctype name 0;
         progress_event h (local_lang w) doctype name 33;
         progress_event h (local_lang w) doctype name 66;
         progress_event h (local_lang w) doctype name 100]).
    { rewrite !published_app, Hf, Hg, He, Hs. reflexivity. }
    rewrite <- !app_assoc. unfold progress_percents. rewrite Hpub.
    split; [reflexivity|]. split; [reflexivity|].
    repeat constructor.
  - intros o w' Hrun. unfold execute, call in Hrun.
    destruct (execute_body h doctype name title lang false
                           auto_name print_format letter_head w)
      as [ob wb] eqn:Hbody.
    assert (Hw : wb = w') by (destruct ob; now inversion Hrun). subst wb.
    destruct (folders_calls_spec h (store w) doctype title) as (_ & Hf & _).
    destruct (generate_calls_quiet h (language_in_effect lang w) doctype name
                print_format letter_head) as (Hg & _).
    cbv zeta in *.
    assert (Hbefore :
      published (calls_before h doctype name title lang false
                              print_format letter_head w) = []).
    { unfold calls_before. rewrite !published_app, Hf, Hg. reflexivity. }
    destruct ob as [[]| |e].
    + destruct (execute_body_normal _ _ _ _ _ _ _ _ _ _ _ Hbody)
        as (pdf & Hgen & Hsince & _).
      rewrite Hsince, published_app, Hbefore. unfold calls_after.
      destruct (einvoice_calls_spec h (local_lang w) doctype name false pdf)
        as (_ & He & _).
      destruct (save_and_attach_calls_spec h (einvoice_pdf h doctype name pdf)
                  doctype name (Some (execute_target_folder doctype title))
                  auto_name) as (_ & Hs & _).
      cbv zeta in *. rewrite !published_app, He, Hs. reflexivity.
    + destruct (execute_body_stopped _ _ _ _ _ _ _ _ _ _ _ _ Hbody)
        as (_ & Hsince & _); [discriminate|].
      now rewrite Hsince.
    + destruct (execute_body_stopped _ _ _ _ _ _ _ _ _ _ _ _ Hbody)
        as (_ & Hsince & _); [discriminate|].
      now rewrite Hsince.
Qed.

Lemma execute_progress_events_witness :
  (execute_body sample_host "Sales Order" "SO/2024/0001" (Some "ACME") None true
                (Some "format:{customer}/{name}") (Some "Standard") None world0
   = (Normal tt, world_after_execute)
   /\ progress_percents (since world0 world_after_execute) = [0; 33; 66; 100]%Z)
  /\ (execute sample_host "Sales Order" "SO/2024/0001" (Some "ACME") None false
              (Some "format:{customer}/{name}") (Some "Standard") None world0
      = (Normal tt, world_after_quiet_execute)
      /\ published (since world0 world_after_quiet_execute) = []).
Proof.
  destruct (execute_progress_events sample_host "Sales Order" "SO/2024/0001"
              (Some "ACME") None (Some "format:{customer}/{name}")
              (Some "Standard") None world0) as [Hon Hoff].
  split.
  - split; [vm_compute; reflexivity|]. apply Hon. vm_compute. reflexivity.
  - split; [vm_compute; reflexivity|]. apply (Hoff (Normal tt)).
    vm_compute. reflexivity.
Defined.

(** C4 (as the code has it).  A run of [execute] that reaches the end
    ensures the folder path, then renders the PDF, then saves the file,
    with a progress event before, between and after these steps when
    [show_progress] is set; it fetches no settings.  A run of [attach_pdf]
    that attaches a file fetches the settings, then renders the PDF, then
    saves the file; it creates no folder and publishes no progress event. *)
Theorem handler_step_order :
  forall h : Host,
    (forall (doctype name : string) (title lang : option string)
            (show_progress : bool)
            (auto_name print_format letter_head : option string) (w w' : World),
        execute_body h doctype name title lang show_progress
                     auto_name print_format letter_head w = (Normal tt, w') ->
        steps (since w w')
        = if show_progress
          then [PublishProgress; CreateFolderPath; PublishProgress; RenderPdf;
                PublishProgress; SaveFile; PublishProgress]
          else [CreateFolderPath; RenderPdf; SaveFile])
    /\ (forall (doc : Document) (event : option string) (w w' : World),
           attach_pdf_body h doc event w = (Normal tt, w') ->
           steps (since w w') = [FetchSettings; RenderPdf; SaveFile]).
Proof.
  intros h. split.
  - intros doctype name title lang show_progress auto_name print_format
           letter_head w w' Hrun.
    destruct (execute_body_normal _ _ _ _ _ _ _ _ _ _ _ Hrun)
      as (pdf & Hgen & Hsince & _).
    rewrite Hsince. unfold calls_before, calls_after, steps.
    destruct (folders_calls_spec h (store w) doctype title) as ([n Hf] & _).
    destruct (generate_calls_spec h _ _ _ _ _ _ Hgen) as ([m Hg] & _).
    destruct (einvoice_calls_spec h (local_lang w) doctype name show_progress pdf)
      as (He & _).
    destruct (save_and_attach_calls_spec h (einvoice_pdf h doctype name pdf)
                doctype name (Some (execute_target_folder doctype title)) auto_name)
      as (Hs & _).
    cbv zeta in *.
    rewrite !classify_app, Hf, Hg, He, Hs.
    destruct show_progress; cbn [progress_calls classify step_of app];
      rewrite <- ?app_assoc;
      repeat (rewrite ?squash_repeat; cbn [squash Step_eqb app]);
      reflexivity.
  - intros doc event w w' Hrun.
    rewrite attach_pdf_body_run in Hrun. unfold attach_pdf_summary in Hrun.
    destruct (settings_get_enabled_for
                (host_get_single h "PDF on Submit Settings") (doc_doctype doc))
      as [|row rest]; [discriminate|].
    destruct (host_render_pdf h (local_lang w) (row_print_format row) doc
                              (row_letter_head row)) as [[pdf|]|e];
      try discriminate.
    apply (f_equal snd) in Hrun. cbn [snd] in Hrun. subst w'.
    erewrite since_app by reflexivity.
    unfold steps. rewrite !classify_app.
    destruct (save_and_attach_calls_spec h pdf (doc_doctype doc) (doc_name doc)
                (getattr_target_folder row (Some "Home")) (row_auto_name row))
      as (Hs & _).
    cbv zeta in Hs. rewrite Hs. reflexivity.
Qed.

Lemma handler_step_order_witness :
  (execute_body sample_host "Sales Order" "SO/2024/0001" (Some "ACME") None true
                (Some "format:{customer}/{name}") (Some "Standard") None world0
   = (Normal tt, world_after_execute)
   /\ steps (since world0 world_after_execute)
      = [PublishProgress; CreateFolderPath; PublishProgress; RenderPdf;
         PublishProgress; SaveFile; PublishProgress])
  /\ (attach_pdf_body sample_host sample_doc None world0
      = (Normal tt, world_after_attach)
      /\ steps (since world0 world_after_attach)
         = [FetchSettings; RenderPdf; SaveFile]).
Proof.
  destruct (handler_step_order sample_host) as [Hexecute Hattach].
  split.
  - split; [vm_compute; reflexivity|].
    apply (Hexecute "Sales Order" "SO/2024/0001" (Some "ACME") None true
                    (Some "format:{customer}/{name}") (Some "Standard") None).
    vm_compute. reflexivity.
  - split; [vm_compute; reflexivity|].
    apply (Hattach sample_doc None). vm_compute. reflexivity.
Defined.

(** C4, as stated, fails: a successful run of [execute] ensures the
    folder path before it renders, and fetches no settings, so its steps
    are not the listed "fetch settings, render PDF, create folder path,
    save file". *)
Lemma execute_steps_differ_from_listed_order :
  execute_body sample_host "Sales Order" "SO/2024/0001" (Some "ACME") None true
               (Some "format:{customer}/{name}") (Some "Standard") None world0
  = (Normal tt, world_after_execute)
  /\ without_progress (steps (since world0 world_after_execute))
     = [CreateFolderPath; RenderPdf; SaveFile]
  /\ without_progress (steps (since world0 world_after_execute))
     <> spec_listed_order.
Proof.
  split; [vm_compute; reflexivity|].
  split; [vm_compute; reflexivity|].
  vm_compute. discriminate.
Qed.

Lemma folders_files_are_folders h files doctype title :
  Forall (fun f => is_folder f = 1%Z /\ content f = None
                   /\ attached_to_doctype f = None)
         (folders_files h files doctype title).
Proof.
  unfold folders_files, create_folder_files.
  apply Forall_app. split.
  - destruct (host_db_exists h files "File" (String.concat "/" ["Home"; doctype]));
      repeat constructor.
  - destruct (truthy title) as [ttl|]; [|constructor].
    match goal with |- context [if ?b then _ else _] => destruct b end;
      repeat constructor.
Qed.

Lemma folders_files_on_path h files doctype title :
  Forall (fun f =>
            f = folder_file doctype "Home"
            \/ exists t : string,
                 truthy title = Some t /\ f = folder_file t ("Home/" ++ doctype))
         (folders_files h files doctype title).
Proof.
  unfold folders_files, create_folder_files, doctype_folder_name.
  apply Forall_app. split.
  - destruct (host_db_exists h files "File" (String.concat "/" ["Home"; doctype]));
      repeat constructor.
  - destruct (truthy title) as [t|]; [|constructor].
    match goal with |- context [if ?b then _ else _] => destruct b end;
      [constructor|].
    constructor; [|constructor].
    right. exists t. split; reflexivity.
Qed.

(** C2 (as the code has it).  When the print-format generator raises,
    [attach_pdf] catches the exception, whatever its class, logs it and
    returns with no File saved and the File store unchanged.  [execute]
    catches a [TypeError] of the generator, logs it and returns with no
    PDF File saved; the File store then holds, besides what it held, only
    the folders of the folder path that were missing: the folder of the
    doctype under ["Home"] and, for a non-empty title, the folder of the
    title under it. *)
Theorem generation_errors_caught_and_logged :
  forall h : Host,
    (forall (doc : Document) (event : option string) (w : World)
            (row : EnabledRow) (rest : list EnabledRow) (e : exn),
        settings_get_enabled_for (host_get_single h "PDF on Submit Settings")
                                 (doc_doctype doc) = row :: rest ->
        host_render_pdf h (local_lang w) (row_print_format row) doc
                        (row_letter_head row) = Err e ->
        exists w' : World,
          attach_pdf h doc event w = (Normal tt, w')
          /\ logged_errors (since w w') = [attach_error_message e]
          /\ saved_files (since w w') = []
          /\ store w' = store w)
    /\ (forall (doctype name : string) (title lang : option string)
               (show_progress : bool)
               (auto_name print_format letter_head : option string)
               (w : World) (msg : string),
           host_db_get_value h "Print Format" print_format
                             "print_format_builder_beta" = true ->
           host_render_pdf h (language_in_effect lang w) print_format
                           (host_get_doc h doctype name) letter_head
           = Err (TypeError msg) ->
           exists (w' : World) (folders : list File),
             execute h doctype name title lang show_progress
                     auto_name print_format letter_head w = (Normal tt, w')
             /\ logged_errors (since w w') = ["Error generating PDF: " ++ msg]
             /\ saved_files (since w w') = []
             /\ store w' = (store w ++ folders)%list
             /\ folders = folders_files h (store w) doctype title
             /\ Forall (fun f =>
                          f = folder_file doctype "Home"
                          \/ exists t : string,
                               truthy title = Some t
                               /\ f = folder_file t ("Home/" ++ doctype))
                       folders
             /\ Forall (fun f => is_folder f = 1%Z /\ content f = None
                                 /\ attached_to_doctype f = None) folders).
Proof.
  intros h. split.
  - intros doc event w row rest e Hrow Herr.
    unfold attach_pdf, call. rewrite attach_pdf_body_run.
    unfold attach_pdf_summary. rewrite Hrow, Herr.
    eexists. split; [reflexivity|].
    erewrite since_app by reflexivity. repeat split.
  - intros doctype name title lang show_progress auto_name print_format
           letter_head w msg Hbeta Herr.
    assert (Hgen : generate_outcome h (language_in_effect lang w) doctype name
                                    print_format letter_head = Return).
    { unfold generate_outcome. now rewrite Hbeta, Herr. }
    unfold execute, call. rewrite execute_body_run. unfold execute_summary.
    rewrite Hgen.
    eexists. exists (folders_files h (store w) doctype title).
    split; [reflexivity|]. cbn [store].
    erewrite since_app by reflexivity.
    destruct (folders_calls_spec h (store w) doctype title)
      as (_ & _ & Hfs & Hfe).
    destruct (progress_calls_spec h show_progress (local_lang w) doctype name 0)
      as (_ & _ & Hps0 & Hpe0).
    destruct (progress_calls_spec h show_progress (local_lang w) doctype name 33)
      as (_ & _ & Hps3 & Hpe3).
    cbv zeta in *.
    rewrite !logged_errors_app, !saved_files_app.
    rewrite Hfs, Hfe, Hps0, Hpe0, Hps3, Hpe3.
    unfold generate_calls. rewrite Hbeta, Herr.
    split; [reflexivity|]. split; [reflexivity|]. split; [reflexivity|].
    split; [reflexivity|].
    split; [apply folders_files_on_path | apply folders_files_are_folders].
Qed.

Lemma generation_errors_caught_and_logged_witness :
  (settings_get_enabled_for
     (host_get_single type_error_host "PDF on Submit Settings")
     (doc_doctype sample_doc) = [sample_row]
   /\ host_render_pdf type_error_host (local_lang world0)
        (row_print_format sample_row) sample_doc (row_letter_head sample_row)
      = Err (TypeError "unsupported operand")
   /\ exists w' : World,
        attach_pdf type_error_host sample_doc None world0 = (Normal tt, w')
        /\ logged_errors (since world0 w')
           = [attach_error_message (TypeError "unsupported operand")]
        /\ saved_files (since world0 w') = []
        /\ store w' = store world0)
  /\ (host_db_get_value type_error_host "Print Format" (Some "Standard")
                        "print_format_builder_beta" = true
      /\ host_render_pdf type_error_host (language_in_effect None world0)
           (Some "Standard")
           (host_get_doc type_error_host "Sales Order" "SO/2024/0001") None
         = Err (TypeError "unsupported operand")
      /\ exists (w' : World) (folders : list File),
           execute type_error_host "Sales Order" "SO/2024/0001" None None true
                   None (Some "Standard") None world0 = (Normal tt, w')
           /\ logged_errors (since world0 w')
              = ["Error generating PDF: " ++ "unsupported operand"]
           /\ saved_files (since world0 w') = []
           /\ store w' = (store world0 ++ folders)%list
           /\ folders = folders_files type_error_host (store world0) "Sales Order" None
           /\ Forall (fun f =>
                        f = folder_file "Sales Order" "Home"
                        \/ exists t : string,
                             truthy None = Some t
                             /\ f = folder_file t ("Home/" ++ "Sales Order"))
                     folders
           /\ Forall (fun f => is_folder f = 1%Z /\ content f = None
                               /\ attached_to_doctype f = None) folders).
Proof.
  destruct (generation_errors_caught_and_logged type_error_host)
    as [Hattach Hexecute].
  split.
  - split; [reflexivity|]. split; [reflexivity|].
    apply (Hattach sample_doc None world0 sample_row []); reflexivity.
  - split; [reflexivity|]. split; [reflexivity|].
    apply (Hexecute "Sales Order" "SO/2024/0001" None None true
                    None (Some "Standard") None world0); reflexivity.
Defined.

(** C2, as stated, fails for [execute] on both counts.  When the host's
    [get_print] raises inside [get_pdf_data], [execute] catches and logs
    nothing: the exception leaves the function.  And when it does catch a
    [TypeError] of the generator, it has already created the doctype
    folder, a File record: the File store is not what it was. *)
Lemma execute_neither_catches_all_nor_keeps_state :
  (host_get_print failing_host (local_lang world0) "Sales Order" "SO/2024/0001"
                  (Some "Standard") None
   = Err (OtherException "TemplateError" "bad template")
   /\ execute failing_host "Sales Order" "SO/2024/0001" None None true
              None (Some "Standard") None world0
      = (Raise (OtherException "TemplateError" "bad template"),
         world_after_failure)
   /\ logged_errors (since world0 world_after_failure) = []
   /\ ~ (exists w' : World,
            execute failing_host "Sales Order" "SO/2024/0001" None None true
                    None (Some "Standard") None world0 = (Normal tt, w')))
  /\ (host_render_pdf type_error_host (local_lang world0) (Some "Standard")
        (host_get_doc type_error_host "Sales Order" "SO/2024/0001") None
      = Err (TypeError "unsupported operand")
      /\ execute type_error_host "Sales Order" "SO/2024/0001" None None true
                 None (Some "Standard") None world0
         = (Normal tt, world_after_type_error)
      /\ store world_after_type_error
         = (store world0 ++ [folder_file "Sales Order" "Home"])%list
      /\ store world_after_type_error <> store world0).
Proof.
  split.
  - split; [reflexivity|].
    assert (Hrun :
      execute failing_host "Sales Order" "SO/2024/0001" None None true
              None (Some "Standard") None world0
      = (Raise (OtherException "TemplateError" "bad template"),
         world_after_failure))
      by (vm_compute; reflexivity).
    split; [exact Hrun|]. split; [vm_compute; reflexivity|].
    intros [w' Hok]. rewrite Hrun in Hok. discriminate.
  - split; [reflexivity|].
    split; [vm_compute; reflexivity|].
    split; [vm_compute; reflexivity|].
    vm_compute. discriminate.
Qed.

(** What the queued job has published when it stops on a [TypeError]. *)
Example execute_type_error_progress :
  progress_percents (since world0 world_after_type_error) = [0; 33]%Z
  /\ logged_errors (since world0 world_after_type_error)
     = ["Error generating PDF: unsupported operand"].
Proof. split; vm_compute; reflexivity. Qed.

(** The sample run of the direct path, file name and folder. *)
Example attach_pdf_sample_file :
  map file_name (saved_files (since world0 world_after_attach))
  = [Some "ACME-SO-2024-0001.pdf"]
  /\ map folder (saved_files (since world0 world_after_attach)) = [Some "Home"]
  /\ map folder (saved_files (since world0 world_after_queued))
     = [Some "Home/Sales Order"].
Proof. repeat split; vm_compute; reflexivity. Qed.

(** C5 (as the code has it).  Given the same document and the same
    settings row, when the direct path and the queued path both reach
    their end, each saves one File; the two Files have the same file name
    and the same attachment target, the document.  Their PDF content is
    the same when the print format is one of the print-format builder, the
    queued job renders the same document in the language already in
    effect, and the e-invoice step does not apply. *)
Theorem direct_and_queued_attach_alike :
  forall (h : Host) (doc : Document) (event : option string)
         (row : EnabledRow) (rest : list EnabledRow)
         (title lang : option string) (show_progress : bool)
         (w w1 w2 : World),
    settings_get_enabled_for (host_get_single h "PDF on Submit Settings")
                             (doc_doctype doc) = row :: rest ->
    attach_pdf_body h doc event w = (Normal tt, w1) ->
    execute_body h (doc_doctype doc) (doc_name doc) title lang show_progress
                 (row_auto_name row) (row_print_format row) (row_letter_head row) w
    = (Normal tt, w2) ->
    exists f1 f2 : File,
      saved_files (since w w1) = [f1]
      /\ saved_files (since w w2) = [f2]
      /\ file_name f1 = file_name f2
      /\ attached_to_doctype f1 = Some (doc_doctype doc)
      /\ attached_to_name f1 = Some (doc_name doc)
      /\ attached_to_doctype f2 = Some (doc_doctype doc)
      /\ attached_to_name f2 = Some (doc_name doc)
      /\ (host_db_get_value h "Print Format" (row_print_format row)
                            "print_format_builder_beta" = true ->
          host_get_doc h (doc_doctype doc) (doc_name doc) = doc ->
          language_in_effect lang w = local_lang w ->
          einvoice_applies h (doc_doctype doc) = false ->
          content f1 = content f2).
Proof.
  intros h doc event row rest title lang show_progress w w1 w2 Hrow Hdirect Hqueued.
  rewrite attach_pdf_body_run in Hdirect. unfold attach_pdf_summary in Hdirect.
  rewrite Hrow in Hdirect.
  destruct (host_render_pdf h (local_lang w) (row_print_format row) doc
                            (row_letter_head row)) as [[pdf1|]|e] eqn:Hrender;
    try discriminate.
  apply (f_equal snd) in Hdirect. cbn [snd] in Hdirect. subst w1.
  destruct (execute_body_normal _ _ _ _ _ _ _ _ _ _ _ Hqueued)
    as (pdf2 & Hgen & Hsince & _).
  exists (pdf_file h pdf1 (doc_doctype doc) (doc_name doc)
                   (getattr_target_folder row (Some "Home")) (row_auto_name row)).
  exists (pdf_file h (einvoice_pdf h (doc_doctype doc) (doc_name doc) pdf2)
                   (doc_doctype doc) (doc_name doc)
                   (Some (execute_target_folder (doc_doctype doc) title))
                   (row_auto_name row)).
  split; [|split; [|repeat split]].
  - erewrite since_app by reflexivity.
    destruct (save_and_attach_calls_spec h pdf1 (doc_doctype doc) (doc_name doc)
                (getattr_target_folder row (Some "Home")) (row_auto_name row))
      as (_ & _ & Hs & _).
    cbv zeta in Hs. rewrite !saved_files_app, Hs. reflexivity.
  - rewrite Hsince. unfold calls_before, calls_after.
    destruct (folders_calls_spec h (store w) (doc_doctype doc) title)
      as (_ & _ & Hf & _).
    destruct (generate_calls_spec h _ _ _ _ _ _ Hgen) as (_ & _ & Hg & _).
    destruct (einvoice_calls_spec h (local_lang w) (doc_doctype doc) (doc_name doc)
                show_progress pdf2) as (_ & _ & He).
    destruct (save_and_attach_calls_spec h
                (einvoice_pdf h (doc_doctype doc) (doc_name doc) pdf2)
                (doc_doctype doc) (doc_name doc)
                (Some (execute_target_folder (doc_doctype doc) title))
                (row_auto_name row)) as (_ & _ & Hs & _).
    destruct (progress_calls_spec h show_progress (local_lang w) (doc_doctype doc)
                (doc_name doc) 0) as (_ & _ & Hp0 & _).
    destruct (progress_calls_spec h show_progress (local_lang w) (doc_doctype doc)
                (doc_name doc) 33) as (_ & _ & Hp33 & _).
    destruct (progress_calls_spec h show_progress (local_lang w) (doc_doctype doc)
                (doc_name doc) 66) as (_ & _ & Hp66 & _).
    destruct (progress_calls_spec h show_progress (local_lang w) (doc_doctype doc)
                (doc_name doc) 100) as (_ & _ & Hp100 & _).
    cbv zeta in *.
    rewrite !saved_files_app, Hf, Hg, He, Hs, Hp0, Hp33, Hp66, Hp100.
    reflexivity.
  - intros Hbeta Hdoc Hlang Hno. cbn [content pdf_file].
    unfold einvoice_pdf. rewrite Hno.
    unfold generate_outcome in Hgen.
    rewrite Hbeta, Hdoc, Hlang, Hrender in Hgen.
    now inversion Hgen.
Qed.

Lemma direct_and_queued_attach_alike_witness :
  settings_get_enabled_for (host_get_single beta_host "PDF on Submit Settings")
                           (doc_doctype sample_doc) = [sample_row]
  /\ attach_pdf_body beta_host sample_doc None world0
     = (Normal tt, world_after_attach)
  /\ execute_body beta_host (doc_doctype sample_doc) (doc_name sample_doc)
                  None None false (row_auto_name sample_row)
                  (row_print_format sample_row) (row_letter_head sample_row) world0
     = (Normal tt, world_after_beta_queued)
  /\ exists f1 f2 : File,
       saved_files (since world0 world_after_attach) = [f1]
       /\ saved_files (since world0 world_after_beta_queued) = [f2]
       /\ file_name f1 = file_name f2
       /\ attached_to_doctype f1 = Some (doc_doctype sample_doc)
       /\ attached_to_name f1 = Some (doc_name sample_doc)
       /\ attached_to_doctype f2 = Some (doc_doctype sample_doc)
       /\ attached_to_name f2 = Some (doc_name sample_doc)
       /\ content f1 = content f2.
Proof.
  split; [reflexivity|].
  split; [vm_compute; reflexivity|].
  split; [vm_compute; reflexivity|].
  destruct (direct_and_queued_attach_alike beta_host sample_doc None sample_row []
              None None false world0 world_after_attach world_after_beta_queued)
    as (f1 & f2 & H1 & H2 & Hname & Hd1 & Hn1 & Hd2 & Hn2 & Hcontent);
    [reflexivity | vm_compute; reflexivity | vm_compute; reflexivity |].
  exists f1, f2. repeat (split; [assumption|]).
  apply Hcontent; reflexivity.
Defined.

(** C5, as stated, fails: for a classic print format the direct path
    renders with the print-format generator and the queued path with
    [get_print] and [get_pdf], and the contents of the two Files differ. *)
Lemma direct_and_queued_content_differs :
  settings_get_enabled_for (host_get_single sample_host "PDF on Submit Settings")
                           (doc_doctype sample_doc) = [sample_row]
  /\ attach_pdf sample_host sample_doc None world0 = (Normal tt, world_after_attach)
  /\ execute sample_host (doc_doctype sample_doc) (doc_name sample_doc)
             None None true (row_auto_name sample_row)
             (row_print_format sample_row) (row_letter_head sample_row) world0
     = (Normal tt, world_after_queued)
  /\ map content (saved_files (since world0 world_after_attach)) = [Some pdf_weasy]
  /\ map content (saved_files (since world0 world_after_queued)) = [Some pdf_wk]
  /\ map content (saved_files (since world0 world_after_attach))
     <> map content (saved_files (since world0 world_after_queued)).
Proof.
  split; [reflexivity|].
  split; [vm_compute; reflexivity|].
  split; [vm_compute; reflexivity|].
  split; [vm_compute; reflexivity|].
  split; [vm_compute; reflexivity|].
  vm_compute. discriminate.
Qed.

(** * Further properties of the module *)

(** ** Folders *)

Lemma path_exists_app (files more : list File) (doctype name : string) :
  path_exists (files ++ more) doctype name
  = path_exists files doctype name || path_exists more doctype name.
Proof. unfold path_exists. apply existsb_app. Qed.

Lemma path_exists_folder_file (folder parent : string) :
  path_exists [folder_file folder parent] "File" (String.concat "/" [parent; folder])
  = true.
Proof.
  unfold path_exists, folder_file. cbn.
  rewrite String.eqb_refl. reflexivity.
Qed.

Lemma create_folder_files_reads_store h files folder parent :
  exists_reads_store h ->
  create_folder_files h files folder parent
  = if path_exists files "File" (String.concat "/" [parent; folder]) then []
    else [folder_file folder parent].
Proof. intros Hdb. unfold create_folder_files. now rewrite Hdb. Qed.

Lemma create_folder_files_ensure h files folder parent :
  exists_reads_store h ->
  path_exists (files ++ create_folder_files h files folder parent) "File"
              (String.concat "/" [parent; folder]) = true.
Proof.
  intros Hdb. rewrite create_folder_files_reads_store by assumption.
  destruct (path_exists files "File" (String.concat "/" [parent; folder])) eqn:E.
  - now rewrite app_nil_r.
  - rewrite path_exists_app, path_exists_folder_file. apply orb_true_r.
Qed.

(** X1.  [create_folder] returns the path [parent/folder] and makes sure
    the folder exists: on a host whose existence check reads the File
    store, the path exists in the store afterwards; the store is left as
    it was when the folder was there already, and grows by exactly one
    folder record, named [folder] under [parent], when it was not. *)
Theorem create_folder_ensures_folder :
  forall (h : Host) (folder parent : string) (w : World),
    exists_reads_store h ->
    exists w' : World,
      create_folder h folder parent w = (Normal (parent ++ "/" ++ folder), w')
      /\ path_exists (store w') "File" (parent ++ "/" ++ folder) = true
      /\ store w'
         = (if path_exists (store w) "File" (parent ++ "/" ++ folder)
            then store w
            else store w ++ [mkFile (Some folder) None (Some parent) 0 1 None None])%list
      /\ local_lang w' = local_lang w.
Proof.
  intros h folder parent w Hdb. rewrite create_folder_run.
  eexists. split; [reflexivity|]. cbn [store local_lang].
  change (parent ++ "/" ++ folder) with (String.concat "/" [parent; folder]).
  split; [now apply create_folder_files_ensure|]. split; [|reflexivity].
  rewrite create_folder_files_reads_store by assumption.
  destruct (path_exists (store w) "File" (String.concat "/" [parent; folder]));
    [apply app_nil_r | reflexivity].
Qed.

Lemma sample_host_reads_store : exists_reads_store sample_host.
Proof. intros files name. reflexivity. Qed.

Lemma create_folder_ensures_folder_witness :
  exists_reads_store sample_host
  /\ exists w' : World,
       create_folder sample_host "Sales Order" "Home" world0
       = (Normal ("Home" ++ "/" ++ "Sales Order"), w')
       /\ path_exists (store w') "File" ("Home" ++ "/" ++ "Sales Order") = true
       /\ store w'
          = (if path_exists (store world0) "File" ("Home" ++ "/" ++ "Sales Order")
             then store world0
             else store world0
                  ++ [mkFile (Some "Sales Order") None (Some "Home") 0 1 None None])%list
       /\ local_lang w' = local_lang world0.
Proof.
  split; [exact sample_host_reads_store|].
  apply (create_folder_ensures_folder sample_host "Sales Order" "Home" world0).
  exact sample_host_reads_store.
Defined.

(** X2.  [create_folder] is idempotent on such a host: a second call for
    the same folder returns the same path, only asks whether the folder
    exists, and leaves the File store as the first call left it. *)
Theorem create_folder_twice :
  forall (h : Host) (folder parent : string) (w : World),
    exists_reads_store h ->
    let first := create_folder h folder parent w in
    let second := create_folder h folder parent (snd first) in
    fst second = fst first
    /\ store (snd second) = store (snd first)
    /\ since (snd first) (snd second)
       = [CDbExists "File" (parent ++ "/" ++ folder)].
Proof.
  intros h folder parent w Hdb. cbv zeta.
  rewrite (create_folder_run h folder parent w). cbn [fst snd].
  rewrite create_folder_run. cbn [fst snd store trace local_lang].
  split; [reflexivity|].
  assert (Hthere :
    host_db_exists h (store w ++ create_folder_files h (store w) folder parent)
                   "File" (String.concat "/" [parent; folder]) = true).
  { rewrite Hdb. now apply create_folder_files_ensure. }
  split.
  - unfold create_folder_files at 2. rewrite Hthere. apply app_nil_r.
  - apply since_app. cbn [trace]. unfold create_folder_calls at 2.
    rewrite Hthere. reflexivity.
Qed.

Lemma create_folder_twice_witness :
  exists_reads_store sample_host
  /\ (let first := create_folder sample_host "Sales Order" "Home" world0 in
      let second := create_folder sample_host "Sales Order" "Home" (snd first) in
      fst second = fst first
      /\ store (snd second) = store (snd first)
      /\ since (snd first) (snd second)
         = [CDbExists "File" ("Home" ++ "/" ++ "Sales Order")]).
Proof.
  split; [exact sample_host_reads_store|].
  apply (create_folder_twice sample_host "Sales Order" "Home" world0).
  exact sample_host_reads_store.
Defined.

Lemma path_exists_grows (files more : list File) (doctype name : string) :
  path_exists files doctype name = true ->
  path_exists (files ++ more) doctype name = true.
Proof. intros E. now rewrite path_exists_app, E. Qed.

Lemma folders_files_ensure h files doctype title :
  exists_reads_store h ->
  let files' := (files ++ folders_files h files doctype title)%list in
  path_exists files' "File" ("Home/" ++ doctype) = true
  /\ match truthy title with
     | Some t => path_exists files' "File" ("Home/" ++ doctype ++ "/" ++ t) = true
     | None => True
     end.
Proof.
  intros Hdb. cbv zeta. unfold folders_files, doctype_folder_name.
  rewrite app_assoc.
  pose proof (create_folder_files_ensure h files doctype "Home" Hdb) as Hhome.
  split.
  - apply path_exists_grows. exact Hhome.
  - destruct (truthy title) as [t|]; [|exact I].
    exact (create_folder_files_ensure h _ t (String.concat "/" ["Home"; doctype]) Hdb).
Qed.

(** The File store after a run of [execute], whatever the outcome. *)
Lemma execute_body_store h doctype name title lang show_progress
    auto_name print_format letter_head o w w' :
  execute_body h doctype name title lang show_progress
               auto_name print_format letter_head w = (o, w') ->
  exists more : list File,
    store w' = ((store w ++ folders_files h (store w) doctype title) ++ more)%list.
Proof.
  rewrite execute_body_run. unfold execute_summary.
  destruct (generate_outcome h (language_in_effect lang w) doctype name
                             print_format letter_head) as [pdf| |e];
    intros E; apply (f_equal snd) in E; cbn [snd] in E; subst w';
    cbn [store]; eexists; [reflexivity | | ]; now rewrite app_nil_r.
Qed.

(** X3.  Whatever the outcome of [execute], on a host whose existence
    check reads the File store the folder path exists afterwards: the
    folder [Home/<doctype>], and below it the folder of the title when a
    non-empty title is given. *)
Theorem execute_ensures_folder_path :
  forall (h : Host) (doctype name : string) (title lang : option string)
         (show_progress : bool)
         (auto_name print_format letter_head : option string)
         (o : outcome unit) (w w' : World),
    exists_reads_store h ->
    execute h doctype name title lang show_progress
            auto_name print_format letter_head w = (o, w') ->
    path_exists (store w') "File" ("Home/" ++ doctype) = true
    /\ match truthy title with
       | Some t => path_exists (store w') "File" ("Home/" ++ doctype ++ "/" ++ t) = true
       | None => True
       end.
Proof.
  intros h doctype name title lang show_progress auto_name print_format
         letter_head o w w' Hdb Hrun.
  unfold execute, call in Hrun.
  destruct (execute_body h doctype name title lang show_progress
                         auto_name print_format letter_head w)
    as [ob wb] eqn:Hbody.
  assert (Hw : wb = w') by (destruct ob; now inversion Hrun). subst wb.
  destruct (execute_body_store _ _ _ _ _ _ _ _ _ _ _ _ Hbody) as [more Hstore].
  rewrite Hstore.
  destruct (folders_files_ensure h (store w) doctype title Hdb) as [Hhome Htitle].
  split.
  - now apply path_exists_grows.
  - destruct (truthy title) as [t|]; [|exact I]. now apply path_exists_grows.
Qed.

Lemma execute_ensures_folder_path_witness :
  exists_reads_store sample_host
  /\ execute sample_host "Sales Order" "SO/2024/0001" (Some "ACME") None false
             (Some "format:{customer}/{name}") (Some "Standard") None world0
     = (Normal tt, world_after_quiet_execute)
  /\ path_exists (store world_after_quiet_execute) "File" ("Home/" ++ "Sales Order")
     = true
  /\ match truthy (Some "ACME") with
     | Some t =>
         path_exists (store world_after_quiet_execute) "File"
                     ("Home/" ++ "Sales Order" ++ "/" ++ t) = true
     | None => True
     end.
Proof.
  split; [exact sample_host_reads_store|].
  split; [vm_compute; reflexivity|].
  apply (execute_ensures_folder_path sample_host "Sales Order" "SO/2024/0001"
           (Some "ACME") None false (Some "format:{customer}/{name}")
           (Some "Standard") None (Normal tt) world0 world_after_quiet_execute).
  - exact sample_host_reads_store.
  - vm_compute. reflexivity.
Defined.

Lemma execute_target_folder_value (doctype : string) (title : option string) :
  execute_target_folder doctype title
  = match truthy title with
    | Some t => "Home/" ++ doctype ++ "/" ++ t
    | None => "Home/" ++ doctype
    end.
Proof.
  unfold execute_target_folder, doctype_folder_name.
  destruct (truthy title) as [t|]; reflexivity.
Qed.

(** X4.  A run of [execute] that reaches the end saves exactly one File,
    in the folder [Home/<doctype>], or [Home/<doctype>/<title>] when a
    non-empty title is given; an empty title counts as none. *)
Theorem execute_saves_in_doctype_folder :
  forall (h : Host) (doctype name : string) (title lang : option string)
         (show_progress : bool)
         (auto_name print_format letter_head : option string) (w w' : World),
    execute_body h doctype name title lang show_progress
                 auto_name print_format letter_head w = (Normal tt, w') ->
    exists file : File,
      saved_files (since w w') = [file]
      /\ last (store w') file = file
      /\ is_folder file = 0%Z
      /\ folder file
         = Some match title with
                | Some t => if t =? "" then "Home/" ++ doctype
                            else "Home/" ++ doctype ++ "/" ++ t
                | None => "Home/" ++ doctype
                end.
Proof.
  intros h doctype name title lang show_progress auto_name print_format
         letter_head w w' Hrun.
  destruct (execute_body_normal _ _ _ _ _ _ _ _ _ _ _ Hrun)
    as (pdf & Hgen & Hsince & Hstore & _).
  eexists. split; [|split; [|split]].
  - rewrite Hsince. unfold calls_before, calls_after.
    destruct (folders_calls_spec h (store w) doctype title) as (_ & _ & Hf & _).
    destruct (generate_calls_spec h _ _ _ _ _ _ Hgen) as (_ & _ & Hg & _).
    destruct (einvoice_calls_spec h (local_lang w) doctype name show_progress pdf)
      as (_ & _ & He).
    destruct (save_and_attach_calls_spec h (einvoice_pdf h doctype name pdf)
                doctype name (Some (execute_target_folder doctype title))
                auto_name) as (_ & _ & Hs & _).
    cbv zeta in *.
    rewrite !saved_files_app, Hf, Hg, He, Hs.
    destruct show_progress; reflexivity.
  - rewrite Hstore, app_assoc. apply last_last.
  - reflexivity.
  - cbn [folder pdf_file]. rewrite execute_target_folder_value.
    unfold truthy. destruct title as [t|]; [|reflexivity].
    destruct (t =? ""); reflexivity.
Qed.

Lemma execute_saves_in_doctype_folder_witness :
  execute_body sample_host "Sales Order" "SO/2024/0001" (Some "ACME") None true
               (Some "format:{customer}/{name}") (Some "Standard") None world0
  = (Normal tt, world_after_execute)
  /\ exists file : File,
       saved_files (since world0 world_after_execute) = [file]
       /\ last (store world_after_execute) file = file
       /\ is_folder file = 0%Z
       /\ folder file
          = Some match Some "ACME" with
                 | Some t => if t =? "" then "Home/" ++ "Sales Order"
                             else "Home/" ++ "Sales Order" ++ "/" ++ t
                 | None => "Home/" ++ "Sales Order"
                 end.
Proof.
  split; [vm_compute; reflexivity|].
  apply (execute_saves_in_doctype_folder sample_host "Sales Order" "SO/2024/0001"
           (Some "ACME") None true (Some "format:{customer}/{name}")
           (Some "Standard") None world0 world_after_execute).
  vm_compute. reflexivity.
Defined.

(** ** What the handlers never do *)

Lemma existsb_save_and_attach_folder_calls h content to_doctype to_name folder auto_name :
  existsb is_folder_call
          (save_and_attach_calls h content to_doctype to_name folder auto_name)
  = false.
Proof.
  unfold save_and_attach_calls, naming_calls.
  destruct (truthy auto_name) as [a|]; [|reflexivity].
  destruct (startswith (lower a) "format:"); reflexivity.
Qed.

(** X5.  [attach_pdf] never raises and never pushes a realtime event,
    looks for a folder or creates one.  It saves a File only when the
    settings hold a row for the document's doctype and the generator
    returned PDF data; the File then goes into the folder the row names,
    ["Home"] when the row has no [target_folder] attribute.  Otherwise
    the File store is left as it was. *)
Theorem attach_pdf_saves_only_rendered_pdf :
  forall (h : Host) (doc : Document) (event : option string) (w : World),
    exists w' : World,
      attach_pdf h doc event w = (Normal tt, w')
      /\ published (since w w') = []
      /\ existsb is_folder_call (since w w') = false
      /\ ((saved_files (since w w') = [] /\ store w' = store w)
          \/ exists (row : EnabledRow) (rest : list EnabledRow)
                    (pdf : bytes) (file : File),
               settings_get_enabled_for
                 (host_get_single h "PDF on Submit Settings") (doc_doctype doc)
               = row :: rest
               /\ host_render_pdf h (local_lang w) (row_print_format row) doc
                                  (row_letter_head row) = Ok (Some pdf)
               /\ saved_files (since w w') = [file]
               /\ store w' = (store w ++ [file])%list
               /\ content file = Some pdf
               /\ folder file
                  = match row_target_folder row with
                    | Some target_folder => target_folder
                    | None => Some "Home"
                    end).
Proof.
  intros h doc event w.
  unfold attach_pdf, call. rewrite attach_pdf_body_run.
  unfold attach_pdf_summary.
  destruct (settings_get_enabled_for
              (host_get_single h "PDF on Submit Settings") (doc_doctype doc))
    as [|row rest] eqn:Hrow.
  - eexists. split; [reflexivity|].
    erewrite since_app by reflexivity.
    split; [reflexivity|]. split; [reflexivity|]. left. split; reflexivity.
  - destruct (host_render_pdf h (local_lang w) (row_print_format row) doc
                              (row_letter_head row)) as [[pdf|]|e] eqn:Hrender.
    + eexists. split; [reflexivity|].
      erewrite since_app by reflexivity.
      destruct (save_and_attach_calls_spec h pdf (doc_doctype doc) (doc_name doc)
                  (getattr_target_folder row (Some "Home")) (row_auto_name row))
        as (_ & Hp & Hs & _).
      cbv zeta in *.
      rewrite !published_app, !saved_files_app, !existsb_app, Hp, Hs.
      rewrite existsb_save_and_attach_folder_calls.
      split; [reflexivity|]. split; [reflexivity|]. right.
      exists row, rest, pdf. eexists.
      split; [reflexivity|]. split; [exact Hrender|]. split; [reflexivity|].
      split; [reflexivity|]. split; reflexivity.
    + eexists. split; [reflexivity|].
      erewrite since_app by reflexivity.
      split; [reflexivity|]. split; [reflexivity|]. left. split; reflexivity.
    + eexists. split; [reflexivity|].
      erewrite since_app by reflexivity.
      split; [reflexivity|]. split; [reflexivity|]. left. split; reflexivity.
Qed.

(** X6.  When the print-format generator returns [None], both handlers
    log "PDF data is None. Skipping attachment." as their only error and
    return without raising and without saving a File; [attach_pdf] leaves
    the File store as it was. *)
Theorem none_pdf_skips_attachment :
  forall h : Host,
    (forall (doc : Document) (event : option string) (w : World)
            (row : EnabledRow) (rest : list EnabledRow),
        settings_get_enabled_for (host_get_single h "PDF on Submit Settings")
                                 (doc_doctype doc) = row :: rest ->
        host_render_pdf h (local_lang w) (row_print_format row) doc
                        (row_letter_head row) = Ok None ->
        exists w' : World,
          attach_pdf h doc event w = (Normal tt, w')
          /\ logged_errors (since w w') = ["PDF data is None. Skipping attachment."]
          /\ saved_files (since w w') = []
          /\ store w' = store w)
    /\ (forall (doctype name : string) (title lang : option string)
               (show_progress : bool)
               (auto_name print_format letter_head : option string) (w : World),
           host_db_get_value h "Print Format" print_format
                             "print_format_builder_beta" = true ->
           host_render_pdf h (language_in_effect lang w) print_format
                           (host_get_doc h doctype name) letter_head = Ok None ->
           exists w' : World,
             execute h doctype name title lang show_progress
                     auto_name print_format letter_head w = (Normal tt, w')
             /\ logged_errors (since w w')
                = ["PDF data is None. Skipping attachment."]
             /\ saved_files (since w w') = []).
Proof.
  intros h. split.
  - intros doc event w row rest Hrow Hnone.
    unfold attach_pdf, call. rewrite attach_pdf_body_run.
    unfold attach_pdf_summary. rewrite Hrow, Hnone.
    eexists. split; [reflexivity|].
    erewrite since_app by reflexivity. repeat split.
  - intros doctype name title lang show_progress auto_name print_format
           letter_head w Hbeta Hnone.
    assert (Hgen : generate_outcome h (language_in_effect lang w) doctype name
                                    print_format letter_head = Return).
    { unfold generate_outcome. now rewrite Hbeta, Hnone. }
    unfold execute, call. rewrite execute_body_run. unfold execute_summary.
    rewrite Hgen.
    eexists. split; [reflexivity|].
    erewrite since_app by reflexivity.
    destruct (folders_calls_spec h (store w) doctype title)
      as (_ & _ & Hfs & Hfe).
    destruct (progress_calls_spec h show_progress (local_lang w) doctype name 0)
      as (_ & _ & Hps0 & Hpe0).
    destruct (progress_calls_spec h show_progress (local_lang w) doctype name 33)
      as (_ & _ & Hps3 & Hpe3).
    cbv zeta in *.
    rewrite !logged_errors_app, !saved_files_app.
    rewrite Hfs, Hfe, Hps0, Hpe0, Hps3, Hpe3.
    unfold generate_calls. rewrite Hbeta, Hnone. repeat split.
Qed.

Lemma none_pdf_skips_attachment_witness :
  (settings_get_enabled_for (host_get_single none_host "PDF on Submit Settings")
                            (doc_doctype sample_doc) = [sample_row]
   /\ host_render_pdf none_host (local_lang world0) (row_print_format sample_row)
                      sample_doc (row_letter_head sample_row) = Ok None
   /\ exists w' : World,
        attach_pdf none_host sample_doc None world0 = (Normal tt, w')
        /\ logged_errors (since world0 w')
           = ["PDF data is None. Skipping attachment."]
        /\ saved_files (since world0 w') = []
        /\ store w' = store world0)
  /\ (host_db_get_value none_host "Print Format" (Some "Standard")
                        "print_format_builder_beta" = true
      /\ host_render_pdf none_host (language_in_effect None world0) (Some "Standard")
           (host_get_doc none_host "Sales Order" "SO/2024/0001") None = Ok None
      /\ exists w' : World,
           execute none_host "Sales Order" "SO/2024/0001" None None true
                   None (Some "Standard") None world0 = (Normal tt, w')
           /\ logged_errors (since world0 w')
              = ["PDF data is None. Skipping attachment."]
           /\ saved_files (since world0 w') = []).
Proof.
  destruct (none_pdf_skips_attachment none_host) as [Hattach Hexecute].
  split.
  - split; [reflexivity|]. split; [reflexivity|].
    apply (Hattach sample_doc None world0 sample_row []); reflexivity.
  - split; [reflexivity|]. split; [reflexivity|].
    apply (Hexecute "Sales Order" "SO/2024/0001" None None true
                    None (Some "Standard") None world0); reflexivity.
Defined.

Lemma calls_before_quiet h doctype name title lang show_progress
    print_format letter_head w :
  let t := calls_before h doctype name title lang show_progress
                        print_format letter_head w in
  saved_files t = []
  /\ map ev_percent (published t) = (if show_progress then [0; 33]%Z else [])
  /\ existsb is_get_single_call t = false
  /\ existsb is_einvoice_call t = false.
Proof.
  cbv zeta.
  unfold calls_before, progress_calls, folders_calls, create_folder_calls,
    generate_calls, get_pdf_data_calls.
  repeat match goal with
         | |- context [match ?x with _ => _ end] => destruct x
         end;
    repeat split.
Qed.

Lemma calls_after_spec h doctype name title show_progress auto_name w pdf :
  let t := calls_after h doctype name title show_progress auto_name w pdf in
  saved_files t
  = [pdf_file h (einvoice_pdf h doctype name pdf) doctype name
              (Some (execute_target_folder doctype title)) auto_name]
  /\ map ev_percent (published t) = (if show_progress then [66; 100]%Z else [])
  /\ existsb is_get_single_call t = false.
Proof.
  cbv zeta.
  unfold calls_after, progress_calls, einvoice_calls, save_and_attach_calls,
    naming_calls.
  repeat match goal with
         | |- context [match ?x with _ => _ end] => destruct x
         end;
    repeat split.
Qed.

(** X7.  A run of [execute] saves a File exactly when it reaches the end
    of the function: then it has saved one File and, with [show_progress],
    published 0, 33, 66, 100; a run that returns early or raises has saved
    no File and published 0 and 33 only.  Progress 66 and 100 are never
    shown for a PDF that was not rendered.  No run fetches the settings. *)
Theorem execute_saves_iff_it_completes :
  forall (h : Host) (doctype name : string) (title lang : option string)
         (show_progress : bool)
         (auto_name print_format letter_head : option string)
         (o : outcome unit) (w w' : World),
    execute_body h doctype name title lang show_progress
                 auto_name print_format letter_head w = (o, w') ->
    existsb is_get_single_call (since w w') = false
    /\ match o with
       | Normal _ =>
           length (saved_files (since w w')) = 1%nat
           /\ map ev_percent (published (since w w'))
              = (if show_progress then [0; 33; 66; 100]%Z else [])
       | _ =>
           saved_files (since w w') = []
           /\ map ev_percent (published (since w w'))
              = (if show_progress then [0; 33]%Z else [])
       end.
Proof.
  intros h doctype name title lang show_progress auto_name print_format
         letter_head o w w' Hrun.
  destruct (calls_before_quiet h doctype name title lang show_progress
              print_format letter_head w) as (Hbs & Hbp & Hbg & _).
  cbv zeta in *.
  destruct o as [[]| |e].
  - destruct (execute_body_normal _ _ _ _ _ _ _ _ _ _ _ Hrun)
      as (pdf & _ & Hsince & _).
    destruct (calls_after_spec h doctype name title show_progress auto_name w pdf)
      as (Has & Hap & Hag).
    cbv zeta in *.
    rewrite Hsince, existsb_app, saved_files_app, published_app, map_app.
    rewrite Hbs, Hbp, Hbg, Has, Hap, Hag.
    destruct show_progress; repeat split.
  - destruct (execute_body_stopped _ _ _ _ _ _ _ _ _ _ _ _ Hrun)
      as (_ & Hsince & _); [discriminate|].
    rewrite Hsince. repeat split; assumption.
  - destruct (execute_body_stopped _ _ _ _ _ _ _ _ _ _ _ _ Hrun)
      as (_ & Hsince & _); [discriminate|].
    rewrite Hsince. repeat split; assumption.
Qed.

Lemma execute_saves_iff_it_completes_witness :
  execute_body type_error_host "Sales Order" "SO/2024/0001" None None true
               None (Some "Standard") None world0
  = (Return, world_after_type_error)
  /\ existsb is_get_single_call (since world0 world_after_type_error) = false
  /\ saved_files (since world0 world_after_type_error) = []
  /\ map ev_percent (published (since world0 world_after_type_error))
     = [0; 33]%Z.
Proof.
  split; [vm_compute; reflexivity|].
  apply (execute_saves_iff_it_completes type_error_host "Sales Order"
           "SO/2024/0001" None None true None (Some "Standard") None
           Return world0 world_after_type_error).
  vm_compute. reflexivity.
Defined.

(** ** The e-invoice step *)

Lemma msgprints_app t1 t2 :
  msgprints (t1 ++ t2) = (msgprints t1 ++ msgprints t2)%list.
Proof.
  induction t1 as [|c t1 IH]; [reflexivity|].
  destruct c; cbn; rewrite ?IH; reflexivity.
Qed.

Lemma calls_before_no_errors h doctype name title lang show_progress
    print_format letter_head w pdf :
  generate_outcome h (language_in_effect lang w) doctype name
                   print_format letter_head = Normal pdf ->
  let t := calls_before h doctype name title lang show_progress
                        print_format letter_head w in
  logged_errors t = [] /\ msgprints t = [] /\ filter is_einvoice_call t = [].
Proof.
  cbv zeta.
  unfold generate_outcome, get_pdf_data_result, calls_before, progress_calls,
    folders_calls, create_folder_calls, generate_calls, get_pdf_data_calls.
  repeat match goal with
         | |- context [match ?x with _ => _ end] => destruct x
         end;
    intros E; try discriminate E; repeat split.
Qed.

(** X8.  For a Sales Invoice on a site with the eu_einvoice app, a run of
    [execute] that reaches the end passes the rendered PDF, the one the
    [with] block produced, to the helper once.  When the helper returns, the saved File holds what it returned
    and nothing is logged as an error.  When the helper raises, the run
    still reaches the end: the saved File holds the rendered PDF as it
    was, one error is logged, and the user is shown the message exactly
    when [show_progress] is set. *)
Theorem execute_einvoice_step :
  forall (h : Host) (name : string) (title lang : option string)
         (show_progress : bool)
         (auto_name print_format letter_head : option string) (w w' : World),
    mem "eu_einvoice" (host_get_installed_apps h) = true ->
    execute_body h "Sales Invoice" name title lang show_progress
                 auto_name print_format letter_head w = (Normal tt, w') ->
    exists (pdf : bytes) (file : File),
      generate_outcome h (language_in_effect lang w) "Sales Invoice" name
                       print_format letter_head = Normal pdf
      /\ filter is_einvoice_call (since w w')
         = [CGetInstalledApps; CAttachXmlToPdf name pdf]
      /\ saved_files (since w w') = [file]
      /\ match host_attach_xml_to_pdf h name pdf with
         | Ok pdf' =>
             content file = Some pdf'
             /\ logged_errors (since w w') = []
             /\ msgprints (since w w') = []
         | Err _ =>
             content file = Some pdf
             /\ logged_errors (since w w')
                = [einvoice_failure_message h (local_lang w) name]
             /\ msgprints (since w w')
                = (if show_progress
                   then [einvoice_failure_message h (local_lang w) name]
                   else [])
         end.
Proof.
  intros h name title lang show_progress auto_name print_format letter_head
         w w' Hinstalled Hrun.
  destruct (execute_body_normal _ _ _ _ _ _ _ _ _ _ _ Hrun)
    as (pdf & Hgen & Hsince & _).
  destruct (calls_before_no_errors h "Sales Invoice" name title lang show_progress
              print_format letter_head w pdf Hgen) as (Hbe & Hbm & Hbf).
  cbv zeta in *.
  exists pdf.
  exists (pdf_file h (einvoice_pdf h "Sales Invoice" name pdf) "Sales Invoice" name
                   (Some (execute_target_folder "Sales Invoice" title)) auto_name).
  split; [exact Hgen|].
  rewrite Hsince.
  rewrite filter_app, saved_files_app, logged_errors_app.
  rewrite msgprints_app, Hbe, Hbm, Hbf.
  destruct (calls_before_quiet h "Sales Invoice" name title lang show_progress
              print_format letter_head w) as (Hbs & _).
  cbv zeta in Hbs. rewrite Hbs. cbn [app].
  unfold calls_after, einvoice_calls, einvoice_pdf, einvoice_applies,
    einvoice_failure_message, progress_calls, save_and_attach_calls, naming_calls.
  rewrite Hinstalled, String.eqb_refl. cbn [andb].
  destruct (host_attach_xml_to_pdf h name pdf) as [pdf'|e];
    repeat match goal with
           | |- context [match ?x with _ => _ end] => destruct x
           end;
    repeat split.
Qed.

Lemma execute_einvoice_step_witness :
  mem "eu_einvoice" (host_get_installed_apps broken_einvoice_host) = true
  /\ execute_body broken_einvoice_host "Sales Invoice" "SINV-0001" None None true
                  None (Some "Standard") None world0
     = (Normal tt, world_after_broken_einvoice)
  /\ exists (pdf : bytes) (file : File),
       generate_outcome broken_einvoice_host (language_in_effect None world0)
                        "Sales Invoice" "SINV-0001" (Some "Standard") None
       = Normal pdf
       /\ filter is_einvoice_call (since world0 world_after_broken_einvoice)
          = [CGetInstalledApps; CAttachXmlToPdf "SINV-0001" pdf]
       /\ saved_files (since world0 world_after_broken_einvoice) = [file]
       /\ match host_attach_xml_to_pdf broken_einvoice_host "SINV-0001" pdf with
          | Ok pdf' =>
              content file = Some pdf'
              /\ logged_errors (since world0 world_after_broken_einvoice) = []
              /\ msgprints (since world0 world_after_broken_einvoice) = []
          | Err _ =>
              content file = Some pdf
              /\ logged_errors (since world0 world_after_broken_einvoice)
                 = [einvoice_failure_message broken_einvoice_host
                      (local_lang world0) "SINV-0001"]
              /\ msgprints (since world0 world_after_broken_einvoice)
                 = (if true
                    then [einvoice_failure_message broken_einvoice_host
                            (local_lang world0) "SINV-0001"]
                    else [])
          end.
Proof.
  split; [reflexivity|].
  split; [vm_compute; reflexivity|].
  apply (execute_einvoice_step broken_einvoice_host "SINV-0001" None None true
           None (Some "Standard") None world0 world_after_broken_einvoice).
  - reflexivity.
  - vm_compute. reflexivity.
Defined.

(** The failing helper on the sample site: the message names the
    invoice, and the File holds the PDF as rendered. *)
Example execute_einvoice_failure_sample :
  logged_errors (since world0 world_after_broken_einvoice)
  = ["Failed to attach XML to PDF for Sales Invoice SINV-0001"]
  /\ msgprints (since world0 world_after_broken_einvoice)
     = ["Failed to attach XML to PDF for Sales Invoice SINV-0001"]
  /\ map content (saved_files (since world0 world_after_broken_einvoice))
     = [Some pdf_wk].
Proof. repeat split; vm_compute; reflexivity. Qed.

(** X9.  For any other doctype [execute] neither asks for the installed
    apps nor calls the e-invoice helper, whatever the outcome of the run;
    a run that reaches the end saves the PDF as the [with] block rendered
    it. *)
Theorem execute_skips_einvoice_for_other_doctypes :
  forall (h : Host) (doctype name : string) (title lang : option string)
         (show_progress : bool)
         (auto_name print_format letter_head : option string)
         (o : outcome unit) (w w' : World),
    doctype <> "Sales Invoice" ->
    execute_body h doctype name title lang show_progress
                 auto_name print_format letter_head w = (o, w') ->
    existsb is_einvoice_call (since w w') = false
    /\ (o = Normal tt ->
        exists pdf : bytes,
          generate_outcome h (language_in_effect lang w) doctype name
                           print_format letter_head = Normal pdf
          /\ map content (saved_files (since w w')) = [Some pdf]).
Proof.
  intros h doctype name title lang show_progress auto_name print_format
         letter_head o w w' Hother Hrun.
  apply String.eqb_neq in Hother.
  destruct (calls_before_quiet h doctype name title lang show_progress
              print_format letter_head w) as (Hbs & _ & _ & Hbe).
  cbv zeta in *.
  assert (Hafter : forall pdf,
    existsb is_einvoice_call
      (calls_after h doctype name title show_progress auto_name w pdf) = false
    /\ map content
         (saved_files (calls_after h doctype name title show_progress auto_name w pdf))
       = [Some pdf]).
  { intros pdf.
    unfold calls_after, einvoice_calls, einvoice_pdf, einvoice_applies,
      progress_calls, save_and_attach_calls, naming_calls.
    rewrite Hother. cbn [andb].
    repeat match goal with
           | |- context [match ?x with _ => _ end] => destruct x
           end;
      split; reflexivity. }
  destruct o as [[]| |e].
  - destruct (execute_body_normal _ _ _ _ _ _ _ _ _ _ _ Hrun)
      as (pdf & Hgen & Hsince & _).
    destruct (Hafter pdf) as [Hae Hac].
    rewrite Hsince, existsb_app, saved_files_app, Hbe, Hbs, Hae.
    split; [reflexivity|]. intros _. exists pdf. split; assumption.
  - destruct (execute_body_stopped _ _ _ _ _ _ _ _ _ _ _ _ Hrun)
      as (_ & Hsince & _); [discriminate|].
    rewrite Hsince. split; [assumption | discriminate].
  - destruct (execute_body_stopped _ _ _ _ _ _ _ _ _ _ _ _ Hrun)
      as (_ & Hsince & _); [discriminate|].
    rewrite Hsince. split; [assumption | discriminate].
Qed.

Lemma execute_skips_einvoice_for_other_doctypes_witness :
  "Sales Order" <> "Sales Invoice"
  /\ execute_body einvoice_host "Sales Order" "SO/2024/0001" None None true
                  None (Some "Standard") None world0
     = (Normal tt, world_after_order_on_einvoice_site)
  /\ existsb is_einvoice_call (since world0 world_after_order_on_einvoice_site)
     = false
  /\ exists pdf : bytes,
       generate_outcome einvoice_host (language_in_effect None world0)
                        "Sales Order" "SO/2024/0001" (Some "Standard") None
       = Normal pdf
       /\ map content (saved_files (since world0 world_after_order_on_einvoice_site))
          = [Some pdf].
Proof.
  assert (Hother : "Sales Order" <> "Sales Invoice") by discriminate.
  assert (Hrun :
    execute_body einvoice_host "Sales Order" "SO/2024/0001" None None true
                 None (Some "Standard") None world0
    = (Normal tt, world_after_order_on_einvoice_site))
    by (vm_compute; reflexivity).
  split; [exact Hother|]. split; [exact Hrun|].
  destruct (execute_skips_einvoice_for_other_doctypes einvoice_host "Sales Order"
              "SO/2024/0001" None None true None (Some "Standard") None
              (Normal tt) world0 world_after_order_on_einvoice_site Hother Hrun)
    as [Hquiet Hcontent].
  split; [exact Hquiet|]. apply Hcontent. reflexivity.
Defined.

(** ** Exceptions [execute] does not catch *)

(** X10.  [execute] lets through every exception of the print-format
    generator that is not a [TypeError], and every exception, of whatever
    class, that [get_print] or [get_pdf] raises for a classic print
    format: the call raises that exception, no File is saved, nothing is
    logged as an error, and with [show_progress] the progress stays at
    33. *)
Theorem execute_lets_other_exceptions_through :
  forall (h : Host) (doctype name : string) (title lang : option string)
         (show_progress : bool)
         (auto_name print_format letter_head : option string)
         (w : World) (e : exn),
    (host_db_get_value h "Print Format" print_format "print_format_builder_beta"
     = true
     /\ host_render_pdf h (language_in_effect lang w) print_format
                        (host_get_doc h doctype name) letter_head = Err e
     /\ is_TypeError e = false)
    \/ (host_db_get_value h "Print Format" print_format
                          "print_format_builder_beta" = false
        /\ host_get_print h (language_in_effect lang w) doctype name
                          print_format letter_head = Err e)
    \/ (host_db_get_value h "Print Format" print_format
                          "print_format_builder_beta" = false
        /\ exists html : string,
             host_get_print h (language_in_effect lang w) doctype name
                            print_format letter_head = Ok html
             /\ host_get_pdf h html = Err e) ->
    exists w' : World,
      execute h doctype name title lang show_progress
              auto_name print_format letter_head w = (Raise e, w')
      /\ saved_files (since w w') = []
      /\ logged_errors (since w w') = []
      /\ map ev_percent (published (since w w'))
         = (if show_progress then [0; 33]%Z else []).
Proof.
  intros h doctype name title lang show_progress auto_name print_format
         letter_head w e Hcase.
  assert (Hgen :
    generate_outcome h (language_in_effect lang w) doctype name
                     print_format letter_head = Raise e
    /\ logged_errors (generate_calls h (language_in_effect lang w) doctype name
                                     print_format letter_head) = []).
  { unfold generate_outcome, generate_calls, get_pdf_data_result,
      get_pdf_data_calls.
    destruct Hcase as [(Hbeta & Herr & Hclass) | [(Hbeta & Herr)
                                                 | (Hbeta & html & Hhtml & Herr)]];
      rewrite Hbeta.
    - rewrite Herr. destruct e; [discriminate Hclass | split; reflexivity].
    - rewrite Herr. split; reflexivity.
    - rewrite Hhtml, Herr. split; reflexivity. }
  destruct Hgen as [Hgen Hquiet].
  unfold execute, call. rewrite execute_body_run. unfold execute_summary.
  rewrite Hgen.
  eexists. split; [reflexivity|].
  erewrite since_app by reflexivity.
  destruct (calls_before_quiet h doctype name title lang show_progress
              print_format letter_head w) as (Hbs & Hbp & _).
  cbv zeta in *. unfold calls_before in Hbs, Hbp.
  split; [exact Hbs|]. split; [|exact Hbp].
  destruct (folders_calls_spec h (store w) doctype title) as (_ & _ & _ & Hfe).
  destruct (progress_calls_spec h show_progress (local_lang w) doctype name 0)
    as (_ & _ & _ & Hpe0).
  destruct (progress_calls_spec h show_progress (local_lang w) doctype name 33)
    as (_ & _ & _ & Hpe3).
  cbv zeta in *.
  rewrite !logged_errors_app, Hfe, Hpe0, Hpe3, Hquiet. reflexivity.
Qed.

Lemma execute_lets_other_exceptions_through_witness :
  (host_db_get_value failing_host "Print Format" (Some "Standard")
                     "print_format_builder_beta" = false
   /\ host_get_print failing_host (language_in_effect None world0) "Sales Order"
                     "SO/2024/0001" (Some "Standard") None
      = Err (OtherException "TemplateError" "bad template"))
  /\ exists w' : World,
       execute failing_host "Sales Order" "SO/2024/0001" None None true
               None (Some "Standard") None world0
       = (Raise (OtherException "TemplateError" "bad template"), w')
       /\ saved_files (since world0 w') = []
       /\ logged_errors (since world0 w') = []
       /\ map ev_percent (published (since world0 w'))
          = (if true then [0; 33]%Z else []).
Proof.
  assert (Hcase :
    host_db_get_value failing_host "Print Format" (Some "Standard")
                      "print_format_builder_beta" = false
    /\ host_get_print failing_host (language_in_effect None world0) "Sales Order"
                      "SO/2024/0001" (Some "Standard") None
       = Err (OtherException "TemplateError" "bad template"))
    by (split; reflexivity).
  split; [exact Hcase|].
  apply (execute_lets_other_exceptions_through failing_host "Sales Order"
           "SO/2024/0001" None None true None (Some "Standard") None world0).
  right. left. exact Hcase.
Defined.

(** ** File names *)

Lemma lower_append (s t : string) : lower (s ++ t) = lower s ++ lower t.
Proof.
  induction s as [|c s IH]; [reflexivity|].
  change (String (lower_ascii c) (lower (s ++ t))
          = String (lower_ascii c) (lower s ++ lower t)).
  now rewrite IH.
Qed.

Lemma prefix_append (p s : string) : String.prefix p (p ++ s) = true.
Proof.
  induction p as [|c p IH]; [destruct s; reflexivity|].
  change ((if ascii_dec c c then String.prefix p (p ++ s) else false) = true).
  destruct (ascii_dec c c) as [_|Hne]; [exact IH | now elim Hne].
Qed.

Lemma replace_append (old new : ascii) (s t : string) :
  replace old new (s ++ t) = replace old new s ++ replace old new t.
Proof.
  induction s as [|c s IH]; [reflexivity|].
  change (String (if Ascii.eqb c old then new else c) (replace old new (s ++ t))
          = String (if Ascii.eqb c old then new else c)
                   (replace old new s ++ replace old new t)).
  now rewrite IH.
Qed.

Lemma replace_absent (old new : ascii) (s : string) :
  contains_char old s = false -> replace old new s = s.
Proof.
  induction s as [|c s IH]; [reflexivity|].
  intros H. cbn [contains_char] in H.
  apply orb_false_iff in H. destruct H as [Hc Hs].
  change (String (if Ascii.eqb c old then new else c) (replace old new s)
          = String c s).
  now rewrite Hc, IH.
Qed.

(** X11.  The [format:] prefix of an autoname is recognised in any
    letter case: for an autoname whose first characters lower to
    ["format:"], [set_name_from_naming_options] asks the host's
    [_format_autoname], passing the autoname as written, and
    [save_and_attach] names the File after the answer, with ["/"]
    replaced by ["-"] and [".pdf"] appended. *)
Theorem format_prefix_in_any_case :
  forall (h : Host) (prefix rest : string) (content : bytes)
         (to_doctype to_name : string) (folder : option string) (w : World),
    lower prefix = "format:" ->
    let autoname := prefix ++ rest in
    let doc := host_get_doc h to_doctype to_name in
    (forall w0 : World,
        fst (set_name_from_naming_options h autoname doc w0)
        = Normal (host_format_autoname h autoname doc)
        /\ since w0 (snd (set_name_from_naming_options h autoname doc w0))
           = [CFormatAutoname autoname doc])
    /\ map file_name
           (saved_files
              (since w (snd (save_and_attach h content to_doctype to_name folder
                                             (Some autoname) w))))
       = [Some (replace "/" "-" (host_format_autoname h autoname doc) ++ ".pdf")].
Proof.
  intros h prefix rest content to_doctype to_name folder w Hprefix. cbv zeta.
  assert (Hstarts : startswith (lower (prefix ++ rest)) "format:" = true).
  { unfold startswith. rewrite lower_append, Hprefix. apply prefix_append. }
  assert (Htruthy : truthy (Some (prefix ++ rest)) = Some (prefix ++ rest)).
  { destruct prefix as [|c prefix]; [discriminate Hprefix | reflexivity]. }
  split.
  - intros w0. rewrite set_name_from_naming_options_run. cbn [fst snd].
    erewrite since_app by reflexivity.
    unfold naming_options_name, naming_calls. rewrite Hstarts. split; reflexivity.
  - rewrite save_and_attach_run. cbn [snd].
    erewrite since_app by reflexivity.
    destruct (save_and_attach_calls_spec h content to_doctype to_name folder
                (Some (prefix ++ rest))) as (_ & _ & Hs & _).
    cbv zeta in Hs. rewrite Hs. cbn [map file_name pdf_file].
    unfold chosen_base_name, naming_options_name. rewrite Htruthy, Hstarts.
    reflexivity.
Qed.

Lemma format_prefix_in_any_case_witness :
  lower "FORMAT:" = "format:"
  /\ map file_name
         (saved_files
            (since world0
               (snd (save_and_attach sample_host pdf_wk "Sales Order" "SO/2024/0001"
                                     None (Some ("FORMAT:" ++ "{customer}/{name}"))
                                     world0))))
     = [Some (replace "/" "-"
                (host_format_autoname sample_host ("FORMAT:" ++ "{customer}/{name}")
                   (host_get_doc sample_host "Sales Order" "SO/2024/0001"))
              ++ ".pdf")].
Proof.
  split; [reflexivity|].
  apply (format_prefix_in_any_case sample_host "FORMAT:" "{customer}/{name}" pdf_wk
           "Sales Order" "SO/2024/0001" None world0).
  reflexivity.
Defined.

(** X12.  Without a [format:] autoname the File is named after the
    document and the host's [_format_autoname] is never called: with no
    [auto_name] (or an empty one) the name is [to_name] and no document is
    fetched; with any other autoname it is the name of the fetched
    document.  A name without ["/"] is used as it is. *)
Theorem file_named_after_document :
  forall (h : Host) (content : bytes) (to_doctype to_name : string)
         (folder auto_name : option string) (w : World),
    match truthy auto_name with
    | Some autoname => startswith (lower autoname) "format:" = false
    | None => True
    end ->
    let w' := snd (save_and_attach h content to_doctype to_name folder auto_name w) in
    let base := match truthy auto_name with
                | Some _ => doc_name (host_get_doc h to_doctype to_name)
                | None => to_name
                end in
    map file_name (saved_files (since w w'))
    = [Some (replace "/" "-" base ++ ".pdf")]
    /\ filter (fun c => match c with CFormatAutoname _ _ => true | _ => false end)
              (since w w') = []
    /\ filter is_get_doc_call (since w w')
       = match truthy auto_name with
         | Some _ => [CGetDoc to_doctype to_name]
         | None => []
         end
    /\ (contains_char "/" base = false ->
        map file_name (saved_files (since w w')) = [Some (base ++ ".pdf")]).
Proof.
  intros h content to_doctype to_name folder auto_name w Hplain. cbv zeta.
  rewrite save_and_attach_run. cbn [snd].
  erewrite since_app by reflexivity.
  unfold save_and_attach_calls, pdf_file, chosen_base_name, naming_options_name,
    naming_calls.
  destruct (truthy auto_name) as [a|].
  - rewrite Hplain. cbn.
    repeat split. intros Hnone. now rewrite replace_absent.
  - cbn. repeat split. intros Hnone. now rewrite replace_absent.
Qed.

Lemma file_named_after_document_witness :
  match truthy (Some "naming_series:") with
  | Some autoname => startswith (lower autoname) "format:" = false
  | None => True
  end
  /\ map file_name
         (saved_files
            (since world0
               (snd (save_and_attach sample_host pdf_wk "Sales Order" "SO-0001"
                                     None (Some "naming_series:") world0))))
     = [Some (replace "/" "-"
                (doc_name (host_get_doc sample_host "Sales Order" "SO-0001"))
              ++ ".pdf")].
Proof.
  split; [reflexivity|].
  apply (file_named_after_document sample_host pdf_wk "Sales Order" "SO-0001"
           None (Some "naming_series:") world0).
  reflexivity.
Defined.

(** X13.  The file name does not tell ["/"] from ["-"]: two documents
    whose names differ only in that character get Files of the same
    name. *)
Theorem slash_and_dash_names_collide :
  forall (h : Host) (content1 content2 : bytes) (to_doctype a b : string)
         (folder : option string) (w1 w2 : World),
    map file_name
        (saved_files
           (since w1 (snd (save_and_attach h content1 to_doctype (a ++ "/" ++ b)
                                           folder None w1))))
    = map file_name
          (saved_files
             (since w2 (snd (save_and_attach h content2 to_doctype (a ++ "-" ++ b)
                                             folder None w2)))).
Proof.
  intros h content1 content2 to_doctype a b folder w1 w2.
  rewrite !save_and_attach_run. cbn [snd].
  erewrite !since_app by reflexivity.
  unfold save_and_attach_calls, pdf_file, chosen_base_name. cbn.
  rewrite !replace_append. reflexivity.
Qed.

(** ** The settings row *)

Lemma filter_skips_prefix {A} (p : A -> bool) (pre post : list A) (x : A) :
  Forall (fun y => p y = false) pre -> p x = true ->
  filter p (pre ++ x :: post) = x :: filter p post.
Proof.
  intros Hpre Hx. induction Hpre as [|y pre Hy _ IH]; cbn.
  - now rewrite Hx.
  - now rewrite Hy.
Qed.

(** X14.  [attach_pdf] takes the first settings row of the document's
    doctype: rows of other doctypes before it and all rows after it are
    ignored.  The one rendering it asks for uses that row's print format
    and letter head, and the File it saves that row's folder and
    autoname. *)
Theorem attach_pdf_uses_first_matching_row :
  forall (h : Host) (doc : Document) (event : option string) (w : World)
         (before after : list EnabledRow) (row : EnabledRow),
    enabled_for (host_get_single h "PDF on Submit Settings")
    = (before ++ row :: after)%list ->
    Forall (fun r => row_document_type r <> doc_doctype doc) before ->
    row_document_type row = doc_doctype doc ->
    let w' := snd (attach_pdf h doc event w) in
    filter is_render_call (since w w')
    = [CRenderPdf (row_print_format row) doc (row_letter_head row)]
    /\ saved_files (since w w')
       = match host_render_pdf h (local_lang w) (row_print_format row) doc
                               (row_letter_head row) with
         | Ok (Some pdf) =>
             [pdf_file h pdf (doc_doctype doc) (doc_name doc)
                       (getattr_target_folder row (Some "Home"))
                       (row_auto_name row)]
         | _ => []
         end.
Proof.
  intros h doc event w before after row Hrows Hbefore Hrow. cbv zeta.
  assert (Hfirst :
    settings_get_enabled_for (host_get_single h "PDF on Submit Settings")
                             (doc_doctype doc)
    = row :: filter (fun r => row_document_type r =? doc_doctype doc) after).
  { unfold settings_get_enabled_for. rewrite Hrows.
    apply filter_skips_prefix.
    - eapply Forall_impl; [|exact Hbefore].
      intros r Hne. now apply String.eqb_neq.
    - now apply String.eqb_eq. }
  unfold attach_pdf, call. rewrite attach_pdf_body_run.
  unfold attach_pdf_summary. rewrite Hfirst.
  destruct (host_render_pdf h (local_lang w) (row_print_format row) doc
                            (row_letter_head row)) as [[pdf|]|e];
    cbn [snd]; erewrite since_app by reflexivity;
    try (split; reflexivity).
  destruct (save_and_attach_calls_spec h pdf (doc_doctype doc) (doc_name doc)
              (getattr_target_folder row (Some "Home")) (row_auto_name row))
    as (_ & _ & Hs & _).
  cbv zeta in Hs.
  rewrite !saved_files_app, Hs. split; [|reflexivity].
  unfold save_and_attach_calls, naming_calls.
  destruct (truthy (row_auto_name row)) as [a|]; [|reflexivity].
  destruct (startswith (lower a) "format:"); reflexivity.
Qed.

Lemma attach_pdf_uses_first_matching_row_witness :
  enabled_for (host_get_single many_rows_host "PDF on Submit Settings")
  = ([quotation_row] ++ sample_row :: [second_order_row])%list
  /\ Forall (fun r => row_document_type r <> doc_doctype sample_doc) [quotation_row]
  /\ row_document_type sample_row = doc_doctype sample_doc
  /\ filter is_render_call
            (since world0 (snd (attach_pdf many_rows_host sample_doc None world0)))
     = [CRenderPdf (row_print_format sample_row) sample_doc
                   (row_letter_head sample_row)].
Proof.
  assert (Hbefore :
    Forall (fun r => row_document_type r <> doc_doctype sample_doc) [quotation_row])
    by (constructor; [discriminate | constructor]).
  split; [reflexivity|]. split; [exact Hbefore|]. split; [reflexivity|].
  apply (attach_pdf_uses_first_matching_row many_rows_host sample_doc None world0
           [quotation_row] [second_order_row] sample_row);
    [reflexivity | exact Hbefore | reflexivity].
Defined.
